(** * E-commerce marketplace: inventory and order transaction engine

    A shallow embedding of the transactional core of [E-commerce.py]
    ([Product], [Order], [CustomerAgent], [Marketplace]) together with the
    properties of its cart and purchase operations.

    Modelling conventions.
    - Python objects are mutable and have identity: carts, the catalogue,
      purchase histories and orders hold _references_ to [Product] objects.
      A reference is a [ref]; the object store maps each reference to the
      current contents of the object it denotes.  Mutating [product.stock]
      therefore is visible through every list that holds the same reference.
    - Python [int] is unbounded: [Z].
    - Python [float] is IEEE 754 binary64: Rocq's primitive [float], whose
      operations are specified by [FloatAxioms].
    - [datetime.now()] is an input of the environment: the operations that
      read the clock take the reading as an argument. *)

From Stdlib Require Import ZArith List Bool String Lia Sorted.
From Stdlib Require Import Floats.
Import ListNotations.

Local Open Scope Z_scope.

(** ** Data model *)

Inductive ProductCategory : Type :=
  | ELECTRONICS
  | CLOTHING
  | BOOKS
  | HOME
  | SPORTS.

(** Object identity. *)
Definition ref : Type := positive.
Bind Scope positive_scope with ref.

Module Product.
Record t : Type := mk {
  id : Z;
  name : string;
  category : ProductCategory;
  price : float;
  stock : Z;
  seller_id : Z
}.

(** [product.stock = s] *)
Definition set_stock (s : Z) (p : t) : t :=
  mk (id p) (name p) (category p) (price p) s (seller_id p).
End Product.

Module Order.
Record t : Type := mk {
  order_id : Z;
  customer_id : Z;
  products : list ref;
  total_amount : float;
  status : string;
  timestamp : Z
}.
End Order.

Module CustomerAgent.
Record t : Type := mk {
  agent_id : Z;
  name : string;
  budget : float;
  preferences : list ProductCategory;
  purchase_history : list ref;
  shopping_cart : list ref
}.

(** [self.shopping_cart = cart] (also the in-place [append] and [clear],
    the cart list being referenced by its owner only). *)
Definition set_shopping_cart (cart : list ref) (c : t) : t :=
  mk (agent_id c) (name c) (budget c) (preferences c) (purchase_history c) cart.
End CustomerAgent.

(** The fields [customers], [sellers] and [current_customer] of the Python
    class belong to the registry and the menus; none of the methods embedded
    below reads or writes them. *)
Module Marketplace.
Record t : Type := mk {
  products : list ref;
  orders : list Order.t;
  order_counter : Z
}.

(** [Marketplace.__init__] *)
Definition init : t := mk [] [] 1.
End Marketplace.

(** The program state: the two object stores and the marketplace. *)
Record World : Type := mkWorld {
  product_objs : ref -> Product.t;
  customer_objs : ref -> CustomerAgent.t;
  market : Marketplace.t
}.

(** Store update at one reference. *)
Definition upd {A : Type} (h : ref -> A) (r : ref) (v : A) : ref -> A :=
  fun r' => if Pos.eqb r' r then v else h r'.

(** ** Operations *)

(** The builtin [sum] over floats: left to right, starting from [0].
    (CPython 3.12 and later carry a compensation term along; the two agree
    on lists of at most two items.  The statements below take a sum apart
    for a list of one price only, and evaluate it on lists of at most two
    given prices; otherwise they use of [py_sum] only that it is a function
    of the list of prices.) *)
Definition py_sum (xs : list float) : float :=
  fold_left PrimFloat.add xs 0%float.

(** [sum(p.price for p in products)] *)
Definition sum_prices (h : ref -> Product.t) (products : list ref) : float :=
  py_sum (map (fun r => Product.price (h r)) products).

(** [Marketplace.get_available_products] *)
Definition get_available_products (w : World) : list ref :=
  filter (fun r => 0 <? Product.stock (product_objs w r))
         (Marketplace.products (market w)).

(** [Marketplace.check_stock]: [next(..., None)] picks the first catalogue
    entry with the given id; the result is used for its truth value only
    ([None] is falsy, a dataclass instance is truthy). *)
Definition check_stock (w : World) (product_id : Z) : bool :=
  match find (fun r => Product.id (product_objs w r) =? product_id)
             (Marketplace.products (market w)) with
  | None => false
  | Some r => 0 <? Product.stock (product_objs w r)
  end.

(** The loop [for product in products: product.stock -= 1]. *)
Definition decrement_stock (products : list ref) (h : ref -> Product.t)
  : ref -> Product.t :=
  fold_left
    (fun h r => upd h r (Product.set_stock (Product.stock (h r) - 1) (h r)))
    products h.

(** [Marketplace.process_order]; [None] is Python's [None]. *)
Definition process_order (customer : ref) (products : list ref) (now : Z)
    (w : World) : option Order.t * World :=
  if forallb (fun r => check_stock w (Product.id (product_objs w r))) products
  then
    let m := market w in
    let order :=
      Order.mk (Marketplace.order_counter m)
               (CustomerAgent.agent_id (customer_objs w customer))
               products
               (sum_prices (product_objs w) products)
               "COMPLETED"
               now in
    (Some order,
     mkWorld (decrement_stock products (product_objs w))
             (customer_objs w)
             (Marketplace.mk (Marketplace.products m)
                             (Marketplace.orders m ++ [order])
                             (Marketplace.order_counter m + 1)))
  else (None, w).

(** [CustomerAgent.view_cart]; the printing is left out. *)
Definition view_cart (self : ref) (w : World) : float :=
  sum_prices (product_objs w) (CustomerAgent.shopping_cart (customer_objs w self)).

(** [CustomerAgent.add_to_cart] *)
Definition add_to_cart (self : ref) (product : ref) (w : World) : bool * World :=
  let c := customer_objs w self in
  let p := product_objs w product in
  if check_stock w (Product.id p)
     && PrimFloat.leb (Product.price p) (CustomerAgent.budget c)
  then
    (true,
     mkWorld (product_objs w)
             (upd (customer_objs w) self
                  (CustomerAgent.set_shopping_cart
                     (CustomerAgent.shopping_cart c ++ [product]) c))
             (market w))
  else (false, w).

(** [CustomerAgent.remove_from_cart] *)
Definition remove_from_cart (self : ref) (product_id : Z) (w : World) : World :=
  let c := customer_objs w self in
  mkWorld (product_objs w)
          (upd (customer_objs w) self
               (CustomerAgent.set_shopping_cart
                  (filter (fun r => negb (Product.id (product_objs w r) =? product_id))
                          (CustomerAgent.shopping_cart c)) c))
          (market w).

(** Truth value of a list. *)
Definition truthy {A : Type} (l : list A) : bool :=
  match l with
  | [] => false
  | _ :: _ => true
  end.

(** [CustomerAgent.make_purchase] *)
Definition make_purchase (self : ref) (now : Z) (w : World) : bool * World :=
  let total := view_cart self w in
  let c := customer_objs w self in
  if PrimFloat.leb total (CustomerAgent.budget c)
     && truthy (CustomerAgent.shopping_cart c)
  then
    match process_order self (CustomerAgent.shopping_cart c) now w with
    | (Some _, w') =>
        let c' := customer_objs w' self in
        (true,
         mkWorld (product_objs w')
                 (upd (customer_objs w') self
                      (CustomerAgent.mk
                         (CustomerAgent.agent_id c')
                         (CustomerAgent.name c')
                         (PrimFloat.sub (CustomerAgent.budget c') total)
                         (CustomerAgent.preferences c')
                         (CustomerAgent.purchase_history c'
                            ++ CustomerAgent.shopping_cart c')
                         []))
                 (market w'))
    | (None, w') => (false, w')
    end
  else (false, w).

(** [Marketplace.add_product] *)
Definition add_product (product : ref) (w : World) : World :=
  let m := market w in
  mkWorld (product_objs w) (customer_objs w)
          (Marketplace.mk (Marketplace.products m ++ [product])
                          (Marketplace.orders m)
                          (Marketplace.order_counter m)).

(** ** Sequences of operations *)

Inductive op : Type :=
  | AddProduct (product : ref)
  | AddToCart (self : ref) (product : ref)
  | RemoveFromCart (self : ref) (product_id : Z)
  | MakePurchase (self : ref) (now : Z)
  | ProcessOrder (customer : ref) (products : list ref) (now : Z).

Definition step (w : World) (o : op) : World :=
  match o with
  | AddProduct p => add_product p w
  | AddToCart c p => snd (add_to_cart c p w)
  | RemoveFromCart c i => remove_from_cart c i w
  | MakePurchase c now => snd (make_purchase c now w)
  | ProcessOrder c ps now => snd (process_order c ps now w)
  end.

Definition run (w : World) (ops : list op) : World := fold_left step ops w.

(** ** Sign of a specification float *)

(** The sign test [x < 0] on specification floats. *)
Definition SFneg (x : spec_float) : bool :=
  match x with
  | S754_infinity true | S754_finite true _ _ => true
  | _ => false
  end.

(** ** Predicates of the statements *)

(** The total of an order is the sum of the prices of the products it
    holds, read in the store [h]. *)
Definition order_total_ok (h : ref -> Product.t) (o : Order.t) : Prop :=
  Order.total_amount o = sum_prices h (Order.products o).

(** The ids of the ledger, oldest order first. *)
Definition ledger_ids (w : World) : list Z :=
  map Order.order_id (Marketplace.orders (market w)).

(** A budget is negative when [budget < 0] holds. *)
Definition negative (x : float) : bool := PrimFloat.ltb x 0%float.

(** An operation either writes no product and leaves the ledger alone, or
    commits one order: the stock of the ordered products is decremented, and
    the order, numbered by the counter, is appended to the ledger. *)
Inductive step_effect (w w' : World) : Prop :=
  | effect_none :
      product_objs w' = product_objs w ->
      Marketplace.orders (market w') = Marketplace.orders (market w) ->
      Marketplace.order_counter (market w') =
      Marketplace.order_counter (market w) ->
      step_effect w w'
  | effect_commit (customer : ref) (products : list ref) (now : Z) :
      forallb (fun r => check_stock w (Product.id (product_objs w r))) products
      = true ->
      product_objs w' = decrement_stock products (product_objs w) ->
      Marketplace.orders (market w') =
      Marketplace.orders (market w)
        ++ [Order.mk (Marketplace.order_counter (market w))
                     (CustomerAgent.agent_id (customer_objs w customer))
                     products (sum_prices (product_objs w) products)
                     "COMPLETED" now] ->
      Marketplace.order_counter (market w') =
      Marketplace.order_counter (market w) + 1 ->
      Marketplace.products (market w') = Marketplace.products (market w) ->
      step_effect w w'.


(** [r] is the object [check_stock] consults for the id it carries. *)
Definition catalogue_entry (w : World) (r : ref) : Prop :=
  find (fun q => Product.id (product_objs w q) =? Product.id (product_objs w r))
       (Marketplace.products (market w)) = Some r.

(** ** Example states *)

Definition no_product : Product.t :=
  Product.mk 0 EmptyString ELECTRONICS 0%float 0 0.

Definition no_customer : CustomerAgent.t :=
  CustomerAgent.mk 0 EmptyString 0%float [] [] [].

(** A marketplace with one product [P] (id 1, the given price and stock,
    object 1) in its catalogue, and one customer [C] (object 1) with the
    given budget and cart; no order has been placed yet. *)
Definition shop (price : float) (stock : Z) (budget : float) (cart : list ref)
  : World :=
  mkWorld
    (upd (fun _ => no_product) 1%positive
         (Product.mk 1 "P" ELECTRONICS price stock 1))
    (upd (fun _ => no_customer) 1%positive
         (CustomerAgent.mk 1 "C" budget [ELECTRONICS] [] cart))
    (Marketplace.mk [1%positive] [] 1).

(** ** Browsing *)

(** Members of an [Enum] compare by identity. *)
Definition category_eqb (a b : ProductCategory) : bool :=
  match a, b with
  | ELECTRONICS, ELECTRONICS
  | CLOTHING, CLOTHING
  | BOOKS, BOOKS
  | HOME, HOME
  | SPORTS, SPORTS => true
  | _, _ => false
  end.

(** [category in preferences] *)
Definition category_in (a : ProductCategory) (l : list ProductCategory) : bool :=
  existsb (category_eqb a) l.

(** [CustomerAgent.browse_products] *)
Definition browse_products (self : ref) (w : World) : list ref :=
  let c := customer_objs w self in
  filter
    (fun r =>
       category_in (Product.category (product_objs w r))
                   (CustomerAgent.preferences c)
       && PrimFloat.leb (Product.price (product_objs w r))
                        (CustomerAgent.budget c))
    (get_available_products w).

(** ** Sellers and the registry *)

(** The field [sales_history] is set to the empty list by the constructor
    and never read or written afterwards; it is left out. *)
Module SellerAgent.
Record t : Type := mk {
  agent_id : Z;
  name : string;
  products : list ref
}.
End SellerAgent.

(** The marketplace with its registry: the state of the cart and purchase
    operations, the seller objects, and the fields [customers], [sellers]
    and [current_customer] of the [Marketplace] object ([None] until a
    customer has logged in). *)
Record System : Type := mkSystem {
  world : World;
  seller_objs : ref -> SellerAgent.t;
  customers : list ref;
  sellers : list ref;
  current_customer : option ref
}.

Definition with_world (s : System) (w : World) : System :=
  mkSystem w (seller_objs s) (customers s) (sellers s) (current_customer s).

(** [SellerAgent.add_product] *)
Definition seller_add_product (self product : ref) (s : System) : System :=
  let v := seller_objs s self in
  mkSystem (world s)
           (upd (seller_objs s) self
                (SellerAgent.mk (SellerAgent.agent_id v) (SellerAgent.name v)
                                (SellerAgent.products v ++ [product])))
           (customers s) (sellers s) (current_customer s).

(** [Marketplace.register_customer] *)
Definition register_customer (customer : ref) (s : System) : System :=
  mkSystem (world s) (seller_objs s) (customers s ++ [customer]) (sellers s)
           (current_customer s).

(** [Marketplace.register_seller]: [extend] copies the references the
    seller holds at this moment into the catalogue. *)
Definition register_seller (seller : ref) (s : System) : System :=
  let w := world s in
  let m := market w in
  mkSystem
    (mkWorld (product_objs w) (customer_objs w)
             (Marketplace.mk
                (Marketplace.products m
                   ++ SellerAgent.products (seller_objs s seller))
                (Marketplace.orders m)
                (Marketplace.order_counter m)))
    (seller_objs s) (customers s) (sellers s ++ [seller])
    (current_customer s).

(** [Marketplace.get_seller_name] *)
Definition get_seller_name (seller_id : Z) (s : System) : string :=
  match find (fun v => SellerAgent.agent_id (seller_objs s v) =? seller_id)
             (sellers s) with
  | Some v => SellerAgent.name (seller_objs s v)
  | None => "Desconocido"
  end.

(** The figures [seller_analysis_menu] computes for one seller:
    [sum(product.stock for product in seller.products)] over Python
    integers, and the list [[p for p in seller.products if p.stock < 5]]. *)
Definition total_stock (seller : ref) (s : System) : Z :=
  fold_left Z.add
    (map (fun r => Product.stock (product_objs (world s) r))
         (SellerAgent.products (seller_objs s seller)))
    0.

Definition low_stock_products (seller : ref) (s : System) : list ref :=
  filter (fun r => Product.stock (product_objs (world s) r) <? 5)
         (SellerAgent.products (seller_objs s seller)).

(** ** Menus

    The menus read the console.  What they read is an argument here:
    [choice] is the value of [int(input(...))], [None] when the conversion
    raises [ValueError] (which the menu catches); [confirm] tells whether
    the answer, after [strip().lower()], is ['s'].  Printing is left out.
    A menu returns [None] when it raises: it selects a method of
    [self.current_customer] while nobody is logged in. *)

(** [0 <= index < len(l)] and then [l[index]] *)
Definition item_at {A : Type} (l : list A) (index : Z) : option A :=
  if (0 <=? index) && (index <? Z.of_nat (List.length l))
  then nth_error l (Z.to_nat index)
  else None.

(** [Marketplace.add_to_cart_menu] *)
Definition add_to_cart_menu (choice : option Z) (s : System) : option System :=
  let products := get_available_products (world s) in
  if negb (truthy products) then Some s
  else
    match choice with
    | None => Some s
    | Some n =>
        match item_at products (n - 1) with
        | None => Some s
        | Some product =>
            match current_customer s with
            | None => None
            | Some c =>
                Some (with_world s (snd (add_to_cart c product (world s))))
            end
        end
    end.

(** [Marketplace.remove_from_cart_menu] *)
Definition remove_from_cart_menu (choice : option Z) (s : System)
  : option System :=
  match current_customer s with
  | None => None
  | Some c =>
      let cart := CustomerAgent.shopping_cart (customer_objs (world s) c) in
      if negb (truthy cart) then Some s
      else
        match choice with
        | None => Some s
        | Some n =>
            match item_at cart (n - 1) with
            | None => Some s
            | Some product =>
                Some (with_world s
                        (remove_from_cart
                           c (Product.id (product_objs (world s) product))
                           (world s)))
            end
        end
  end.

(** [Marketplace.make_purchase_menu] *)
Definition make_purchase_menu (confirm : bool) (now : Z) (s : System)
  : option System :=
  match current_customer s with
  | None => None
  | Some c =>
      let w := world s in
      if negb (truthy (CustomerAgent.shopping_cart (customer_objs w c)))
      then Some s
      else if PrimFloat.ltb (CustomerAgent.budget (customer_objs w c))
                            (view_cart c w)
      then Some s
      else if confirm
      then Some (with_world s (snd (make_purchase c now w)))
      else Some s
  end.

(** [Marketplace.login_menu]; the result is the returned flag and the
    state. *)
Definition login_menu (choice : option Z) (s : System) : bool * System :=
  if negb (truthy (customers s)) then (false, s)
  else
    match choice with
    | None => (false, s)
    | Some n =>
        match item_at (customers s) (n - 1) with
        | Some c =>
            (true,
             mkSystem (world s) (seller_objs s) (customers s) (sellers s)
                      (Some c))
        | None => (false, s)
        end
    end.

(** ** Accounting *)

(** The number of units of the object [r] that the orders of the ledger
    hold. *)
Definition units_sold (w : World) (r : ref) : Z :=
  Z.of_nat
    (list_sum
       (map (fun o => count_occ Pos.eq_dec (Order.products o) r)
            (Marketplace.orders (market w)))).

(** The fields of a product other than its stock. *)
Definition same_product_but_stock (p q : Product.t) : Prop :=
  Product.id p = Product.id q /\
  Product.name p = Product.name q /\
  Product.category p = Product.category q /\
  Product.price p = Product.price q /\
  Product.seller_id p = Product.seller_id q.

(** A state of the example shop with a second catalogue entry, object 2,
    that carries the id of [P] as well. *)
Definition shop_two_entries (stock1 stock2 : Z) (budget : float)
    (cart : list ref) : World :=
  mkWorld
    (upd (upd (fun _ => no_product) 1%positive
              (Product.mk 1 "P" ELECTRONICS 10%float stock1 1))
         2%positive
         (Product.mk 1 "Q" ELECTRONICS 10%float stock2 1))
    (upd (fun _ => no_customer) 1%positive
         (CustomerAgent.mk 1 "C" budget [ELECTRONICS] [] cart))
    (Marketplace.mk [1%positive; 2%positive] [] 1).

(** The operations a customer performs; [process_order] is reached through
    [make_purchase] only. *)
Definition customer_op (o : op) : bool :=
  match o with
  | ProcessOrder _ _ _ => false
  | _ => true
  end.

Definition no_seller : SellerAgent.t := SellerAgent.mk 0 EmptyString [].

(** The example shop with its registry: the seller [S] (id 1, object 1)
    owns [P] and is registered, and so is the customer [C]. *)
Definition shop_system (w : World) (logged_in : option ref) : System :=
  mkSystem w
           (upd (fun _ => no_seller) 1%positive
                (SellerAgent.mk 1 "S" [1%positive]))
           [1%positive] [1%positive] logged_in.

(** A marketplace with two products in its catalogue, [P1] (id 1, object 1)
    and [P2] (id 2, object 2), one unit of each in stock, and the customer
    [C] (object 1) with the given budget and cart. *)
Definition shop_two_products (price1 price2 budget : float) (cart : list ref)
  : World :=
  mkWorld
    (upd (upd (fun _ => no_product) 1%positive
              (Product.mk 1 "P1" ELECTRONICS price1 1 1))
         2%positive
         (Product.mk 2 "P2" BOOKS price2 1 1))
    (upd (fun _ => no_customer) 1%positive
         (CustomerAgent.mk 1 "C" budget [ELECTRONICS; BOOKS] [] cart))
    (Marketplace.mk [1%positive; 2%positive] [] 1).

(** * Properties *)

(** ** Facts about binary64 comparison and subtraction

    The two order facts the purchase guard relies on, derived from the
    specification of the primitive operations: [x < y] excludes [y <= x],
    and [t <= b] makes [b - t] not negative (rounding keeps the sign of the
    exact difference). *)

Lemma SFcompare_antisym (x y : spec_float) :
  SFcompare y x = option_map CompOpp (SFcompare x y).
Proof.
  destruct x as [sx|sx| |sx mx ex], y as [sy|sy| |sy my ey]; simpl;
    try reflexivity;
    try (destruct sx; reflexivity);
    try (destruct sy; reflexivity);
    try (destruct sx, sy; reflexivity).
  rewrite (Z.compare_antisym ex ey).
  change (Pos.compare_cont Eq my mx) with (Pos.compare my mx).
  change (Pos.compare_cont Eq mx my) with (Pos.compare mx my).
  rewrite (Pos.compare_antisym mx my).
  destruct sx, sy; simpl; try reflexivity;
    destruct (ex ?= ey); simpl; try reflexivity;
    destruct (mx ?= my)%positive; reflexivity.
Qed.

Lemma ltb_leb_false (x y : float) :
  PrimFloat.ltb x y = true -> PrimFloat.leb y x = false.
Proof.
  rewrite ltb_spec, leb_spec. unfold SFltb, SFleb.
  rewrite (SFcompare_antisym (Prim2SF x) (Prim2SF y)).
  destruct (SFcompare (Prim2SF x) (Prim2SF y)) as [[ | | ]|]; simpl; congruence.
Qed.

Lemma SFltb_zero (x : spec_float) (s : bool) : SFltb x (S754_zero s) = SFneg x.
Proof. destruct x as [sx|sx| |sx mx ex]; try destruct sx; reflexivity. Qed.

Lemma digits2_pos_bounds (m : positive) :
  2 ^ (Zpos (digits2_pos m) - 1) <= Zpos m < 2 ^ Zpos (digits2_pos m).
Proof.
  induction m as [m IH|m IH|]; simpl digits2_pos.
  - rewrite Pos2Z.inj_succ.
    replace (Z.succ (Zpos (digits2_pos m)) - 1) with (Z.succ (Zpos (digits2_pos m) - 1)) by lia.
    rewrite !Z.pow_succ_r by lia. lia.
  - rewrite Pos2Z.inj_succ.
    replace (Z.succ (Zpos (digits2_pos m)) - 1) with (Z.succ (Zpos (digits2_pos m) - 1)) by lia.
    rewrite !Z.pow_succ_r by lia. lia.
  - simpl. lia.
Qed.

Lemma shl_align_value (m : positive) (e ez : Z) :
  ez <= e -> Zpos (fst (shl_align m e ez)) = Zpos m * 2 ^ (e - ez).
Proof.
  intros Hle. unfold shl_align.
  destruct (ez - e) as [|d|d] eqn:Hd; simpl fst.
  - replace (e - ez) with 0 by lia. simpl. lia.
  - lia.
  - change (Pos.iter xO m d) with (shift_pos d m).
    rewrite shift_pos_correct. change (Zpower_pos 2 d) with (2 ^ Zpos d).
    replace (e - ez) with (Zpos d) by lia. lia.
Qed.

Lemma bounded_digits (m : positive) (e : Z) :
  bounded prec emax m e = true ->
  Zpos (digits2_pos m) <= prec /\
  (emin < e -> Zpos (digits2_pos m) = prec).
Proof.
  unfold bounded, canonical_mantissa, fexp.
  rewrite andb_true_iff, Z.eqb_eq. intros [Hc _]. lia.
Qed.

Lemma bounded_exp_lt (m1 m2 : positive) (e1 e2 : Z) :
  bounded prec emax m1 e1 = true ->
  bounded prec emax m2 e2 = true ->
  e1 < e2 ->
  Zpos m1 <= Zpos m2 * 2 ^ (e2 - e1).
Proof.
  intros H1 H2 Hlt.
  assert (Hmin : emin <= e1).
  { revert H1. unfold bounded, canonical_mantissa, fexp.
    rewrite andb_true_iff, Z.eqb_eq. lia. }
  destruct (bounded_digits _ _ H1) as [Hd1 _].
  destruct (bounded_digits _ _ H2) as [_ Hd2].
  specialize (Hd2 ltac:(lia)).
  pose proof (digits2_pos_bounds m1) as [_ Hm1].
  pose proof (digits2_pos_bounds m2) as [Hm2 _].
  rewrite Hd2 in Hm2.
  assert (Hp1 : 2 ^ Zpos (digits2_pos m1) <= 2 ^ prec)
    by (apply Z.pow_le_mono_r; lia).
  assert (Hp2 : 2 ^ 1 <= 2 ^ (e2 - e1))
    by (apply Z.pow_le_mono_r; lia).
  assert (Hp3 : 2 ^ prec = 2 ^ (prec - 1) * 2 ^ 1)
    by (rewrite <- Z.pow_add_r by (unfold prec; lia); f_equal; lia).
  assert (0 < 2 ^ (prec - 1)) by (apply Z.pow_pos_nonneg; unfold prec; lia).
  nia.
Qed.

Lemma binary_round_aux_sign (m e : Z) (l : location) :
  SFneg (binary_round_aux prec emax false m e l) = false.
Proof.
  unfold binary_round_aux.
  destruct (shr_fexp prec emax m e l) as [mrs' e'].
  destruct (shr_fexp prec emax _ e' loc_Exact) as [mrs'' e''].
  destruct (shr_m mrs''); [reflexivity| |reflexivity].
  destruct (e'' <=? emax - prec); reflexivity.
Qed.

Lemma binary_normalize_sign (m e : Z) :
  0 <= m -> SFneg (binary_normalize prec emax m e false) = false.
Proof.
  intros Hm. destruct m as [|p|p]; simpl; [reflexivity| |lia].
  unfold binary_round.
  destruct (shl_align p e _) as [mz ez].
  apply binary_round_aux_sign.
Qed.

Lemma SFsub_sign (x y : spec_float) :
  valid_binary x = true -> valid_binary y = true ->
  SFleb y x = true ->
  SFneg (SFsub prec emax x y) = false.
Proof.
  intros Vx Vy. unfold SFleb.
  destruct x as [sx|sx| |sx mx ex], y as [sy|sy| |sy my ey];
    try (simpl; congruence);
    try (destruct sx; simpl; congruence);
    try (destruct sy; simpl; congruence);
    try (destruct sx, sy; simpl; congruence).
  simpl in Vx, Vy. intros Hle.
  unfold SFsub. apply binary_normalize_sign.
  set (ez := Z.min ex ey).
  rewrite (shl_align_value mx ex ez), (shl_align_value my ey ez) by (unfold ez; lia).
  assert (Hx : 0 < Zpos mx * 2 ^ (ex - ez))
    by (apply Z.mul_pos_pos; [lia | apply Z.pow_pos_nonneg; unfold ez; lia]).
  assert (Hy : 0 < Zpos my * 2 ^ (ey - ez))
    by (apply Z.mul_pos_pos; [lia | apply Z.pow_pos_nonneg; unfold ez; lia]).
  revert Hle. simpl SFcompare.
  change (Pos.compare_cont Eq my mx) with (Pos.compare my mx).
  unfold cond_Zopp.
  destruct sx, sy; try congruence; try lia;
    (destruct (Z.compare_spec ey ex) as [He|He|He]; try congruence;
     [ subst ey; destruct (Pos.compare_spec my mx); cbv beta iota delta [CompOpp];
       try congruence;
       intros _; clear Hy; set (P := 2 ^ (ex - ez)) in *; clearbody P;
       try subst my; nia
     | intros _; unfold ez in *;
       first [ rewrite Z.min_l in * by lia | rewrite Z.min_r in * by lia ];
       rewrite Z.sub_diag, Z.mul_1_r in * ]).
  - pose proof (bounded_exp_lt mx my ex ey Vx Vy He). lia.
  - pose proof (bounded_exp_lt my mx ey ex Vy Vx He). lia.
Qed.

Lemma leb_sub_not_negative (t b : float) :
  PrimFloat.leb t b = true -> PrimFloat.ltb (PrimFloat.sub b t) 0%float = false.
Proof.
  rewrite leb_spec, ltb_spec, sub_spec. intros Hle.
  change (Prim2SF 0%float) with (S754_zero false).
  rewrite SFltb_zero.
  apply SFsub_sign; auto using Prim2SF_valid.
Qed.

(** ** Basic facts about the operations *)

Lemma upd_same {A : Type} (h : ref -> A) (r : ref) (v : A) : upd h r v r = v.
Proof. unfold upd. now rewrite Pos.eqb_refl. Qed.

Lemma upd_other {A : Type} (h : ref -> A) (r r' : ref) (v : A) :
  r' <> r -> upd h r v r' = h r'.
Proof.
  intros Hne. unfold upd.
  destruct (Pos.eqb_spec r' r) as [->|_]; [contradiction|reflexivity].
Qed.

(** The stock check of [process_order] fails as soon as one product of the
    list fails it. *)
Lemma stock_check_fails (w : World) (products : list ref) :
  (exists r, In r products /\
             check_stock w (Product.id (product_objs w r)) = false) ->
  forallb (fun r => check_stock w (Product.id (product_objs w r))) products
  = false.
Proof.
  intros (r & Hin & Hr).
  destruct (forallb _ products) eqn:Hall; [|reflexivity].
  rewrite forallb_forall in Hall. specialize (Hall r Hin). congruence.
Qed.

Lemma process_order_fails (customer : ref) (products : list ref) (now : Z)
    (w : World) :
  forallb (fun r => check_stock w (Product.id (product_objs w r))) products
  = false ->
  process_order customer products now w = (None, w).
Proof. intros H. unfold process_order. now rewrite H. Qed.

Lemma process_order_succeeds (customer : ref) (products : list ref) (now : Z)
    (w : World) :
  forallb (fun r => check_stock w (Product.id (product_objs w r))) products
  = true ->
  process_order customer products now w =
  (Some (Order.mk (Marketplace.order_counter (market w))
                  (CustomerAgent.agent_id (customer_objs w customer))
                  products (sum_prices (product_objs w) products)
                  "COMPLETED" now),
   mkWorld (decrement_stock products (product_objs w))
           (customer_objs w)
           (Marketplace.mk
              (Marketplace.products (market w))
              (Marketplace.orders (market w)
                 ++ [Order.mk (Marketplace.order_counter (market w))
                              (CustomerAgent.agent_id (customer_objs w customer))
                              products (sum_prices (product_objs w) products)
                              "COMPLETED" now])
              (Marketplace.order_counter (market w) + 1))).
Proof. intros H. unfold process_order. now rewrite H. Qed.

(** [check_stock] answers for the first catalogue entry that carries the id. *)
Lemma check_stock_true (w : World) (product_id : Z) :
  check_stock w product_id = true ->
  exists r, In r (Marketplace.products (market w)) /\
            Product.id (product_objs w r) = product_id /\
            0 < Product.stock (product_objs w r).
Proof.
  unfold check_stock.
  destruct (find _ _) as [r|] eqn:Hfind; [|discriminate].
  intros Hstock. apply find_some in Hfind. destruct Hfind as [Hin Hid].
  exists r. rewrite Z.eqb_eq in Hid. rewrite Z.ltb_lt in Hstock. auto.
Qed.

Lemma add_to_cart_result (self product : ref) (w : World) :
  fst (add_to_cart self product w) =
  check_stock w (Product.id (product_objs w product))
  && PrimFloat.leb (Product.price (product_objs w product))
                   (CustomerAgent.budget (customer_objs w self)).
Proof. unfold add_to_cart. now destruct (_ && _). Qed.

Lemma add_to_cart_rejected (self product : ref) (w : World) :
  fst (add_to_cart self product w) = false ->
  snd (add_to_cart self product w) = w.
Proof. unfold add_to_cart. destruct (_ && _); [discriminate|reflexivity]. Qed.

Lemma add_to_cart_accepted (self product : ref) (w : World) :
  fst (add_to_cart self product w) = true ->
  snd (add_to_cart self product w) =
  mkWorld (product_objs w)
          (upd (customer_objs w) self
               (CustomerAgent.set_shopping_cart
                  (CustomerAgent.shopping_cart (customer_objs w self)
                     ++ [product])
                  (customer_objs w self)))
          (market w).
Proof. unfold add_to_cart. destruct (_ && _); [reflexivity|discriminate]. Qed.

(** ** Failed purchases leave the state alone *)

(** C2. The stock check covers the whole batch before anything is written:
    when some product of the list handed to [process_order] fails
    [check_stock], the call returns [None] and the state is the one before
    the call: no stock, budget or cart has changed.  The same holds for
    [make_purchase] on a cart that contains such a product. *)
Theorem process_order_all_or_nothing
    (self : ref) (products : list ref) (now : Z) (w : World) :
  (exists r, In r products /\
             check_stock w (Product.id (product_objs w r)) = false) ->
  process_order self products now w = (None, w) /\
  (CustomerAgent.shopping_cart (customer_objs w self) = products ->
   make_purchase self now w = (false, w)).
Proof.
  intros Hbad. apply stock_check_fails in Hbad.
  pose proof (process_order_fails self products now w Hbad) as Hnone.
  split; [exact Hnone|].
  intros Hcart. unfold make_purchase. rewrite Hcart, Hnone.
  now destruct (_ && _).
Qed.

(** The second scenario of the specification: [P] has no stock left when the
    purchase is attempted. *)
Lemma process_order_all_or_nothing_witness :
  let w := shop 100 0 150 [1%positive] in
  process_order 1 [1%positive] 0 w = (None, w) /\
  make_purchase 1 0 w = (false, w).
Proof.
  intros w.
  destruct (process_order_all_or_nothing 1 [1%positive] 0 w) as [H1 H2].
  - exists 1%positive. split; [simpl; auto|reflexivity].
  - split; [exact H1|apply H2; reflexivity].
Defined.

(** C6. A purchase whose cart total exceeds the buyer's budget fails, and
    the state after the attempt is the state before it: stocks, budget,
    cart and ledger are untouched and no order exists that did not before. *)
Theorem purchase_over_budget_is_noop (self : ref) (now : Z) (w : World) :
  PrimFloat.ltb (CustomerAgent.budget (customer_objs w self))
                (view_cart self w) = true ->
  make_purchase self now w = (false, w).
Proof.
  intros Hover. unfold make_purchase.
  now rewrite (ltb_leb_false _ _ Hover).
Qed.

Lemma purchase_over_budget_is_noop_witness :
  let w := shop 100 1 50 [1%positive] in
  PrimFloat.ltb (CustomerAgent.budget (customer_objs w 1%positive))
                (view_cart 1 w) = true /\
  make_purchase 1 0 w = (false, w).
Proof.
  intros w.
  assert (H : PrimFloat.ltb (CustomerAgent.budget (customer_objs w 1%positive))
                            (view_cart 1 w) = true) by reflexivity.
  split; [exact H|].
  apply (purchase_over_budget_is_noop 1 0 w H).
Defined.

(** C7. A purchase with an empty cart fails and changes nothing: the
    resulting state (stocks, budget, cart, ledger, purchase history) is the
    starting state. *)
Theorem purchase_empty_cart_is_noop (self : ref) (now : Z) (w : World) :
  CustomerAgent.shopping_cart (customer_objs w self) = [] ->
  make_purchase self now w = (false, w).
Proof.
  intros Hempty. unfold make_purchase. rewrite Hempty. simpl truthy.
  now rewrite andb_false_r.
Qed.

Lemma purchase_empty_cart_is_noop_witness :
  make_purchase 1 0 (shop 100 1 150 []) = (false, shop 100 1 150 []).
Proof.
  apply (purchase_empty_cart_is_noop 1 0 (shop 100 1 150 [])).
  reflexivity.
Defined.

(** ** Adding to the cart *)

(** C8. [add_to_cart] succeeds exactly when [check_stock] holds for the
    product's id (so a catalogue entry with that id and positive stock
    exists) and the product's price is at most the buyer's current budget;
    on success the product is appended to the cart, otherwise the state is
    unchanged.  In particular a buyer with budget 10 and an empty cart who
    adds an item priced 20 still has an empty cart. *)
Theorem add_to_cart_guard (self product : ref) (w : World) :
  let p := product_objs w product in
  let c := customer_objs w self in
  let r := add_to_cart self product w in
  (fst r = true <->
   check_stock w (Product.id p) = true /\
   PrimFloat.leb (Product.price p) (CustomerAgent.budget c) = true) /\
  (check_stock w (Product.id p) = true ->
   exists q, In q (Marketplace.products (market w)) /\
             Product.id (product_objs w q) = Product.id p /\
             0 < Product.stock (product_objs w q)) /\
  (fst r = true ->
   CustomerAgent.shopping_cart (customer_objs (snd r) self) =
   CustomerAgent.shopping_cart c ++ [product]) /\
  (fst r = false -> snd r = w) /\
  (CustomerAgent.budget c = 10%float -> Product.price p = 20%float ->
   CustomerAgent.shopping_cart c = [] ->
   fst r = false /\
   CustomerAgent.shopping_cart (customer_objs (snd r) self) = []).
Proof.
  intros p c r. subst p c r.
  split; [|split; [|split; [|split]]].
  - rewrite add_to_cart_result. apply andb_true_iff.
  - apply check_stock_true.
  - intros Hok. rewrite (add_to_cart_accepted _ _ _ Hok). simpl.
    now rewrite upd_same.
  - apply add_to_cart_rejected.
  - intros Hbudget Hprice Hcart.
    assert (Hno : fst (add_to_cart self product w) = false).
    { rewrite add_to_cart_result, Hbudget, Hprice. apply andb_false_r. }
    split; [exact Hno|].
    now rewrite (add_to_cart_rejected _ _ _ Hno).
Qed.

(** The third scenario of the specification. *)
Lemma add_to_cart_guard_witness :
  let w := shop 20 1 10 [] in
  fst (add_to_cart 1 1 w) = false /\
  CustomerAgent.shopping_cart (customer_objs (snd (add_to_cart 1 1 w)) 1%positive)
  = [].
Proof.
  intros w.
  destruct (add_to_cart_guard 1 1 w) as (_ & _ & _ & _ & H).
  apply H; reflexivity.
Defined.

(** ** What one operation does to the store and the ledger *)

Lemma decrement_stock_price (products : list ref) (h : ref -> Product.t)
    (r : ref) :
  Product.price (decrement_stock products h r) = Product.price (h r).
Proof.
  unfold decrement_stock. revert h.
  induction products as [|q products IH]; intros h; simpl; [reflexivity|].
  rewrite IH. unfold upd. destruct (Pos.eqb_spec r q) as [->|_]; reflexivity.
Qed.

Lemma sum_prices_decrement (products l : list ref) (h : ref -> Product.t) :
  sum_prices (decrement_stock products h) l = sum_prices h l.
Proof.
  unfold sum_prices. f_equal. apply map_ext.
  intros r. apply decrement_stock_price.
Qed.

Lemma make_purchase_success (self : ref) (now : Z) (w w' : World) :
  make_purchase self now w = (true, w') ->
  let c := customer_objs w self in
  let cart := CustomerAgent.shopping_cart c in
  let total := sum_prices (product_objs w) cart in
  PrimFloat.leb total (CustomerAgent.budget c) = true /\
  cart <> [] /\
  forallb (fun r => check_stock w (Product.id (product_objs w r))) cart = true /\
  w' = mkWorld
         (decrement_stock cart (product_objs w))
         (upd (customer_objs w) self
              (CustomerAgent.mk
                 (CustomerAgent.agent_id c) (CustomerAgent.name c)
                 (PrimFloat.sub (CustomerAgent.budget c) total)
                 (CustomerAgent.preferences c)
                 (CustomerAgent.purchase_history c ++ cart) []))
         (Marketplace.mk
            (Marketplace.products (market w))
            (Marketplace.orders (market w)
               ++ [Order.mk (Marketplace.order_counter (market w))
                            (CustomerAgent.agent_id c) cart total
                            "COMPLETED" now])
            (Marketplace.order_counter (market w) + 1)).
Proof.
  intros Hbuy c cart total. revert Hbuy. unfold make_purchase, view_cart.
  fold c. fold cart. fold total.
  destruct (PrimFloat.leb total (CustomerAgent.budget c)) eqn:Hle;
    [|simpl; discriminate].
  destruct (truthy cart) eqn:Hcart; [|simpl; discriminate].
  simpl andb.
  destruct (forallb (fun r => check_stock w (Product.id (product_objs w r))) cart)
    eqn:Hall.
  - rewrite (process_order_succeeds self cart now w Hall).
    cbn [product_objs customer_objs market]. fold c. fold cart.
    intros Heq. injection Heq as <-.
    repeat split; try reflexivity.
    intros Hnil. rewrite Hnil in Hcart. discriminate.
  - rewrite (process_order_fails self cart now w Hall). discriminate.
Qed.

Lemma make_purchase_failure (self : ref) (now : Z) (w w' : World) :
  make_purchase self now w = (false, w') -> w' = w.
Proof.
  unfold make_purchase.
  destruct (_ && _); [|now intros [= <-]].
  unfold process_order. destruct (forallb _ _); [discriminate|now intros [= <-]].
Qed.

Lemma step_has_effect (w : World) (o : op) : step_effect w (step w o).
Proof.
  destruct o as [p|c p|c i|c now|c ps now]; simpl.
  - now apply effect_none.
  - unfold add_to_cart. destruct (_ && _); now apply effect_none.
  - now apply effect_none.
  - destruct (make_purchase c now w) as [[|] w'] eqn:Hbuy; simpl.
    + destruct (make_purchase_success _ _ _ _ Hbuy) as (_ & _ & Hall & ->).
      now apply (effect_commit _ _ c _ now Hall).
    + apply make_purchase_failure in Hbuy. subst w'. now apply effect_none.
  - destruct (forallb (fun r => check_stock w (Product.id (product_objs w r))) ps)
      eqn:Hall.
    + rewrite (process_order_succeeds c ps now w Hall).
      now apply (effect_commit _ _ c _ now Hall).
    + rewrite (process_order_fails c ps now w Hall). now apply effect_none.
Qed.

Lemma run_snoc (w : World) (ops : list op) (o : op) :
  run w (ops ++ [o]) = step (run w ops) o.
Proof. unfold run. now rewrite fold_left_app. Qed.

Lemma pair_eta {A B : Type} (p : A * B) (a : A) : fst p = a -> p = (a, snd p).
Proof. destruct p. simpl. now intros ->. Qed.

(** ** Budget *)

Lemma step_budget (w : World) (o : op) (c : ref) :
  CustomerAgent.budget (customer_objs (step w o) c) =
  CustomerAgent.budget (customer_objs w c) \/
  negative (CustomerAgent.budget (customer_objs (step w o) c)) = false.
Proof.
  destruct o as [p|c' p|c' i|c' now|c' ps now]; simpl.
  - now left.
  - left. unfold add_to_cart. destruct (_ && _); simpl; [|reflexivity].
    unfold upd. now destruct (Pos.eqb_spec c c') as [->|_].
  - left. unfold upd. now destruct (Pos.eqb_spec c c') as [->|_].
  - destruct (make_purchase c' now w) as [[|] w'] eqn:Hbuy; simpl.
    + destruct (make_purchase_success _ _ _ _ Hbuy) as (Hle & _ & _ & ->).
      simpl. unfold upd. destruct (Pos.eqb_spec c c') as [->|_]; [|now left].
      right. simpl. now apply leb_sub_not_negative.
    + apply make_purchase_failure in Hbuy. subst w'. now left.
  - left. unfold process_order. now destruct (forallb _ _).
Qed.

(** C3. A successful purchase appends one order to the ledger and debits
    the buyer's budget by the total of that order:
    [budget_after = budget_before - total_amount]; the budget it leaves is
    not negative.  No sequence of operations makes a budget negative: a
    customer whose budget is not negative before the sequence has a budget
    that is not negative after it. *)
Theorem purchase_debits_budget :
  (forall (self : ref) (now : Z) (w : World),
      fst (make_purchase self now w) = true ->
      let w' := snd (make_purchase self now w) in
      exists order,
        Marketplace.orders (market w') = Marketplace.orders (market w) ++ [order] /\
        CustomerAgent.budget (customer_objs w' self) =
        PrimFloat.sub (CustomerAgent.budget (customer_objs w self))
                      (Order.total_amount order) /\
        negative (CustomerAgent.budget (customer_objs w' self)) = false) /\
  (forall (ops : list op) (w : World) (c : ref),
      negative (CustomerAgent.budget (customer_objs w c)) = false ->
      negative (CustomerAgent.budget (customer_objs (run w ops) c)) = false).
Proof.
  split.
  - intros self now w Hok w'. apply pair_eta in Hok. fold w' in Hok.
    destruct (make_purchase_success _ _ _ _ Hok) as (Hle & _ & _ & Hw').
    eexists. rewrite Hw'. cbn [market customer_objs Marketplace.orders].
    split; [reflexivity|]. rewrite upd_same. cbn.
    split; [reflexivity|]. now apply leb_sub_not_negative.
  - intros ops. induction ops as [|o ops IH] using rev_ind; intros w c Hc.
    + exact Hc.
    + rewrite run_snoc.
      destruct (step_budget (run w ops) o c) as [-> | Hnn]; auto.
Qed.

(** The first scenario of the specification: [P] costs 100 and has one unit
    in stock, [C] has a budget of 150 and [P] in the cart. *)
Lemma purchase_debits_budget_witness :
  let w := shop 100 1 150 [1%positive] in
  let w' := snd (make_purchase 1 0 w) in
  (exists order,
      Marketplace.orders (market w') = Marketplace.orders (market w) ++ [order] /\
      CustomerAgent.budget (customer_objs w' 1%positive) =
      PrimFloat.sub 150 (Order.total_amount order) /\
      negative (CustomerAgent.budget (customer_objs w' 1%positive)) = false) /\
  negative (CustomerAgent.budget
              (customer_objs (run w [MakePurchase 1 0; AddToCart 1 1]) 1%positive))
  = false.
Proof.
  intros w w'. destruct purchase_debits_budget as [Hdebit Hkeep]. split.
  - apply (Hdebit 1%positive 0 w). reflexivity.
  - apply (Hkeep [MakePurchase 1 0; AddToCart 1 1] w 1%positive). reflexivity.
Defined.

Example scenario_purchase_succeeds :
  let w := shop 100 1 150 [1%positive] in
  let w' := snd (make_purchase 1 0 w) in
  fst (make_purchase 1 0 w) = true /\
  Product.stock (product_objs w' 1%positive) = 0 /\
  CustomerAgent.budget (customer_objs w' 1%positive) = 50%float /\
  map Order.total_amount (Marketplace.orders (market w')) = [100%float] /\
  ledger_ids w' = [1].
Proof. repeat split. Qed.

(** ** Order totals *)

Lemma step_price (w : World) (o : op) (r : ref) :
  Product.price (product_objs (step w o) r) = Product.price (product_objs w r).
Proof.
  destruct (step_has_effect w o) as [-> _ _|c ps now _ -> _ _ _];
    [reflexivity|apply decrement_stock_price].
Qed.

Lemma step_sum_prices (w : World) (o : op) (l : list ref) :
  sum_prices (product_objs (step w o)) l = sum_prices (product_objs w) l.
Proof. unfold sum_prices. f_equal. apply map_ext. intros r. apply step_price. Qed.

Lemma step_order_totals (w : World) (o : op) :
  Forall (order_total_ok (product_objs w)) (Marketplace.orders (market w)) ->
  Forall (order_total_ok (product_objs (step w o)))
         (Marketplace.orders (market (step w o))).
Proof.
  intros Hok.
  assert (Hkeep : Forall (order_total_ok (product_objs (step w o)))
                         (Marketplace.orders (market w))).
  { revert Hok. apply Forall_impl. intros ord. unfold order_total_ok.
    now rewrite step_sum_prices. }
  destruct (step_has_effect w o) as [_ -> _|c ps now _ _ -> _ _];
    [exact Hkeep|].
  apply Forall_app. split; [exact Hkeep|].
  constructor; [|constructor].
  unfold order_total_ok. simpl. now rewrite step_sum_prices.
Qed.

(** C4. The order that [process_order] appends to the ledger holds the
    products it was given, and its [total_amount] is the sum of their prices
    computed by the call itself from that list; [make_purchase] commits the
    cart this way, so the total is that of the cart contents at commit time.
    Prices are never written, so every order of the ledger keeps a total
    equal to the sum of the prices of its products through every sequence of
    operations.  Whenever every product of the list passes the stock check
    the order is created and ledgered; the sum is over the price fields: an
    order of one product has that product's price as its total, and an
    order of two products priced 100 and 50 has the total 150.  The total
    is that of the cart as it is when the purchase is made: a cart shown
    with a total of 150 from which the second product is then removed is
    committed with the total 100. *)
Theorem order_total_is_sum_of_prices :
  (forall (customer : ref) (products : list ref) (now : Z) (w : World)
          (order : Order.t),
      fst (process_order customer products now w) = Some order ->
      let w' := snd (process_order customer products now w) in
      Marketplace.orders (market w') = Marketplace.orders (market w) ++ [order] /\
      Order.products order = products /\
      Order.total_amount order = sum_prices (product_objs w) products /\
      order_total_ok (product_objs w') order) /\
  (forall (self : ref) (now : Z) (w : World),
      fst (make_purchase self now w) = true ->
      let w' := snd (make_purchase self now w) in
      let cart := CustomerAgent.shopping_cart (customer_objs w self) in
      exists order,
        Marketplace.orders (market w') = Marketplace.orders (market w) ++ [order] /\
        Order.products order = cart /\
        Order.total_amount order = sum_prices (product_objs w) cart /\
        order_total_ok (product_objs w') order) /\
  (forall (ops : list op) (w : World),
      Forall (order_total_ok (product_objs w)) (Marketplace.orders (market w)) ->
      Forall (order_total_ok (product_objs (run w ops)))
             (Marketplace.orders (market (run w ops)))) /\
  (forall (customer : ref) (products : list ref) (now : Z) (w : World),
      (forall r, In r products ->
                 check_stock w (Product.id (product_objs w r)) = true) ->
      let w' := snd (process_order customer products now w) in
      exists order,
        fst (process_order customer products now w) = Some order /\
        Marketplace.orders (market w') = Marketplace.orders (market w) ++ [order] /\
        Order.products order = products /\
        Order.total_amount order = sum_prices (product_objs w) products) /\
  (forall (customer p : ref) (now : Z) (w : World),
      check_stock w (Product.id (product_objs w p)) = true ->
      exists order,
        fst (process_order customer [p] now w) = Some order /\
        Order.total_amount order =
        PrimFloat.add 0 (Product.price (product_objs w p))) /\
  (let w := shop_two_products 100 50 500 [1%positive; 2%positive] in
   view_cart 1 w = 150%float /\
   fst (make_purchase 1 0 w) = true /\
   map Order.total_amount
       (Marketplace.orders (market (snd (make_purchase 1 0 w)))) = [150%float] /\
   map Order.total_amount
       (Marketplace.orders
          (market (snd (make_purchase 1 0 (remove_from_cart 1 2 w)))))
   = [100%float]).
Proof.
  assert (Hcommit :
    forall (customer : ref) (products : list ref) (now : Z) (w : World),
      (forall r, In r products ->
                 check_stock w (Product.id (product_objs w r)) = true) ->
      let w' := snd (process_order customer products now w) in
      exists order,
        fst (process_order customer products now w) = Some order /\
        Marketplace.orders (market w') = Marketplace.orders (market w) ++ [order] /\
        Order.products order = products /\
        Order.total_amount order = sum_prices (product_objs w) products).
  { intros customer products now w Hall w'. subst w'.
    rewrite <- forallb_forall in Hall.
    rewrite (process_order_succeeds customer products now w Hall).
    eexists. repeat split. }
  split; [|split; [|split; [|split; [|split]]]].
  - intros customer products now w order Hsome w'. subst w'. revert Hsome.
    destruct (forallb (fun r => check_stock w (Product.id (product_objs w r)))
                      products) eqn:Hall.
    + rewrite (process_order_succeeds customer products now w Hall).
      cbn [fst snd market product_objs Marketplace.orders].
      intros [= <-]. unfold order_total_ok.
      cbn [Order.products Order.total_amount].
      rewrite sum_prices_decrement. repeat split.
    + rewrite (process_order_fails customer products now w Hall). discriminate.
  - intros self now w Hok w' cart. apply pair_eta in Hok. fold w' in Hok.
    destruct (make_purchase_success _ _ _ _ Hok) as (_ & _ & _ & Hw').
    eexists. rewrite Hw'. cbn [market product_objs Marketplace.orders].
    split; [reflexivity|]. unfold order_total_ok.
    cbn [Order.products Order.total_amount].
    rewrite sum_prices_decrement. repeat split.
  - intros ops. induction ops as [|o ops IH] using rev_ind; intros w Hok.
    + exact Hok.
    + rewrite run_snoc. apply step_order_totals. now apply IH.
  - exact Hcommit.
  - intros customer p now w Hp.
    destruct (Hcommit customer [p] now w) as (order & Hsome & _ & _ & Htotal).
    + intros r [<-|[]]. exact Hp.
    + exists order. split; [exact Hsome|]. rewrite Htotal. reflexivity.
  - repeat split.
Qed.

(** A direct call for the two products priced 100 and 50. *)
Lemma order_total_is_sum_of_prices_witness :
  let w := shop_two_products 100 50 500 [] in
  let r := process_order 1 [1%positive; 2%positive] 0 w in
  exists order,
    fst r = Some order /\
    Marketplace.orders (market (snd r)) = [order] /\
    Order.products order = [1%positive; 2%positive] /\
    Order.total_amount order = 150%float.
Proof.
  intros w r.
  destruct order_total_is_sum_of_prices as (_ & _ & _ & Hcommit & _).
  destruct (Hcommit 1%positive [1%positive; 2%positive] 0 w)
    as (order & Hsome & Hledger & Hproducts & Htotal).
  - intros p [<-|[<-|[]]]; reflexivity.
  - exists order. repeat split; assumption.
Defined.

(** ** Order ids *)







(** ** What [process_order] reads and writes *)

(** C9. [process_order] never writes a customer: the budget, the cart and
    the purchase history of every customer are the same after the call.  Nor
    does it read the budget: whenever every product of the list passes
    [check_stock] the call creates an order and appends it to the ledger,
    whatever the customer's budget is, also when the total of the list
    exceeds it. *)
Theorem process_order_ignores_customer_state
    (customer : ref) (products : list ref) (now : Z) (w : World) :
  let r := process_order customer products now w in
  customer_objs (snd r) = customer_objs w /\
  ((forall p, In p products ->
              check_stock w (Product.id (product_objs w p)) = true) ->
   exists order,
     fst r = Some order /\
     Marketplace.orders (market (snd r)) =
     Marketplace.orders (market w) ++ [order] /\
     Order.total_amount order = sum_prices (product_objs w) products).
Proof.
  intros r. subst r. split.
  - unfold process_order. now destruct (forallb _ _).
  - intros Hall. rewrite <- forallb_forall in Hall.
    rewrite (process_order_succeeds customer products now w Hall).
    eexists. repeat split.
Qed.

(** A direct call for a customer whose budget (50) is below the total of the
    list (100). *)
Lemma process_order_ignores_customer_state_witness :
  let w := shop 100 1 50 [] in
  let r := process_order 1 [1%positive] 0 w in
  PrimFloat.ltb (CustomerAgent.budget (customer_objs w 1%positive))
                (sum_prices (product_objs w) [1%positive]) = true /\
  exists order,
    fst r = Some order /\
    Marketplace.orders (market (snd r)) = Marketplace.orders (market w) ++ [order] /\
    Order.total_amount order = sum_prices (product_objs w) [1%positive].
Proof.
  intros w r. split; [reflexivity|].
  apply (process_order_ignores_customer_state 1 [1%positive] 0 w).
  intros p [<-|[]]. reflexivity.
Defined.

(** C10. The answer of [add_to_cart] is the stock check of the product's id
    together with the comparison of that one product's price with the
    buyer's whole budget: two states that agree on the product store, the
    marketplace and the buyer's budget give the same answer whatever the
    carts hold.  So two products that each pass the stock check and each
    cost no more than the budget are both added, one after the other,
    whatever their prices add up to.  There is a buyer with an empty cart
    and a budget of 10 for whom two adds of a product priced 6 both succeed:
    after the first the cart total, 6, is within the budget, after the
    second the cart holds both entries and its total, 12, strictly exceeds
    the budget, which is still 10; only [make_purchase] then refuses. *)
Theorem add_to_cart_ignores_staged_items :
  (forall (self product : ref) (w : World),
      fst (add_to_cart self product w) =
      check_stock w (Product.id (product_objs w product))
      && PrimFloat.leb (Product.price (product_objs w product))
                       (CustomerAgent.budget (customer_objs w self))) /\
  (forall (self product : ref) (w1 w2 : World),
      product_objs w1 = product_objs w2 ->
      market w1 = market w2 ->
      CustomerAgent.budget (customer_objs w1 self) =
      CustomerAgent.budget (customer_objs w2 self) ->
      fst (add_to_cart self product w1) = fst (add_to_cart self product w2)) /\
  (forall (self p1 p2 : ref) (w : World),
      let c := customer_objs w self in
      check_stock w (Product.id (product_objs w p1)) = true ->
      PrimFloat.leb (Product.price (product_objs w p1))
                    (CustomerAgent.budget c) = true ->
      check_stock w (Product.id (product_objs w p2)) = true ->
      PrimFloat.leb (Product.price (product_objs w p2))
                    (CustomerAgent.budget c) = true ->
      let r1 := add_to_cart self p1 w in
      let r2 := add_to_cart self p2 (snd r1) in
      fst r1 = true /\ fst r2 = true /\
      CustomerAgent.shopping_cart (customer_objs (snd r2) self) =
      CustomerAgent.shopping_cart c ++ [p1; p2] /\
      CustomerAgent.budget (customer_objs (snd r2) self) =
      CustomerAgent.budget c) /\
  (exists (w : World) (self p1 p2 : ref) (now : Z),
      let r1 := add_to_cart self p1 w in
      let r2 := add_to_cart self p2 (snd r1) in
      CustomerAgent.shopping_cart (customer_objs w self) = [] /\
      CustomerAgent.budget (customer_objs w self) = 10%float /\
      Product.price (product_objs w p1) = 6%float /\
      Product.price (product_objs w p2) = 6%float /\
      fst r1 = true /\
      view_cart self (snd r1) = 6%float /\
      PrimFloat.leb (view_cart self (snd r1))
                    (CustomerAgent.budget (customer_objs (snd r1) self)) = true /\
      fst r2 = true /\
      CustomerAgent.shopping_cart (customer_objs (snd r2) self) = [p1; p2] /\
      CustomerAgent.budget (customer_objs (snd r2) self) = 10%float /\
      view_cart self (snd r2) = 12%float /\
      PrimFloat.ltb (CustomerAgent.budget (customer_objs (snd r2) self))
                    (view_cart self (snd r2)) = true /\
      make_purchase self now (snd r2) = (false, snd r2)).
Proof.
  split; [|split; [|split]].
  - exact add_to_cart_result.
  - intros self product w1 w2 Hobjs Hmarket Hbudget.
    rewrite !add_to_cart_result. unfold check_stock.
    now rewrite Hobjs, Hmarket, Hbudget.
  - intros self p1 p2 w c Hs1 Hp1 Hs2 Hp2 r1 r2.
    assert (H1 : fst r1 = true).
    { unfold r1. rewrite add_to_cart_result. fold c. now rewrite Hs1, Hp1. }
    assert (Hw1 : snd r1 =
                  mkWorld (product_objs w)
                          (upd (customer_objs w) self
                               (CustomerAgent.set_shopping_cart
                                  (CustomerAgent.shopping_cart c ++ [p1]) c))
                          (market w))
      by apply (add_to_cart_accepted _ _ _ H1).
    assert (H2 : fst r2 = true).
    { unfold r2. rewrite add_to_cart_result, Hw1.
      unfold check_stock in *. cbn [product_objs customer_objs market].
      rewrite upd_same. cbn [CustomerAgent.budget CustomerAgent.set_shopping_cart].
      fold c. now rewrite Hs2, Hp2. }
    split; [exact H1|]. split; [exact H2|].
    unfold r2 in *. rewrite (add_to_cart_accepted _ _ _ H2), Hw1.
    cbn [product_objs customer_objs market]. rewrite !upd_same.
    cbn [CustomerAgent.shopping_cart CustomerAgent.budget
         CustomerAgent.set_shopping_cart].
    now rewrite <- app_assoc.
  - exists (shop 6 5 10 []), 1%positive, 1%positive, 1%positive, 0.
    repeat split.
Qed.

(** A buyer with budget 100 and the two products priced 60 and 50: each is
    within the budget, both are added, and the cart totals 110. *)
Lemma add_to_cart_ignores_staged_items_witness :
  let w := shop_two_products 60 50 100 [] in
  let r1 := add_to_cart 1 1 w in
  let r2 := add_to_cart 1 2 (snd r1) in
  (fst r1 = true /\ fst r2 = true /\
   CustomerAgent.shopping_cart (customer_objs (snd r2) 1%positive) =
   [1%positive; 2%positive] /\
   CustomerAgent.budget (customer_objs (snd r2) 1%positive) = 100%float) /\
  view_cart 1 (snd r2) = 110%float /\
  fst (add_to_cart 1 1 (shop 6 5 10 [1%positive; 1%positive])) =
  fst (add_to_cart 1 1 (shop 6 5 10 [])).
Proof.
  intros w r1 r2.
  destruct add_to_cart_ignores_staged_items as (_ & Hsame & Hboth & _).
  split; [|split].
  - apply (Hboth 1%positive 1%positive 2%positive w); reflexivity.
  - reflexivity.
  - apply (Hsame 1%positive 1%positive
                 (shop 6 5 10 [1%positive; 1%positive]) (shop 6 5 10 []));
      reflexivity.
Defined.

(** ** Stock *)

Lemma decrement_stock_count (products : list ref) (h : ref -> Product.t)
    (r : ref) :
  Product.stock (decrement_stock products h r) =
  Product.stock (h r) - Z.of_nat (count_occ Pos.eq_dec products r).
Proof.
  unfold decrement_stock. revert h.
  induction products as [|q products IH]; intros h; simpl; [lia|].
  rewrite IH. unfold upd.
  destruct (Pos.eq_dec q r) as [->|Hne].
  - rewrite Pos.eqb_refl. simpl. lia.
  - destruct (Pos.eqb_spec r q) as [->|_]; [contradiction|lia].
Qed.

(** What the stock check does guarantee: when the list holds no object
    twice and every object of the list is the catalogue entry consulted for
    its id, a call of [process_order] keeps every stock at 0 or above. *)
Lemma process_order_stock_nonneg (customer : ref) (products : list ref)
    (now : Z) (w : World) :
  (forall r, 0 <= Product.stock (product_objs w r)) ->
  NoDup products ->
  (forall r, In r products -> catalogue_entry w r) ->
  forall r,
    0 <= Product.stock
           (product_objs (snd (process_order customer products now w)) r).
Proof.
  intros Hnn Hnd Hcat r.
  destruct (forallb (fun r => check_stock w (Product.id (product_objs w r)))
                    products) eqn:Hall.
  - rewrite (process_order_succeeds customer products now w Hall).
    cbn [snd product_objs]. rewrite decrement_stock_count.
    destruct (in_dec Pos.eq_dec r products) as [Hin|Hout].
    + rewrite forallb_forall in Hall. specialize (Hall r Hin).
      unfold check_stock in Hall. rewrite (Hcat r Hin) in Hall.
      rewrite Z.ltb_lt in Hall.
      rewrite (proj1 (NoDup_count_occ' Pos.eq_dec products) Hnd r Hin). lia.
    + rewrite (proj1 (count_occ_not_In Pos.eq_dec products r) Hout).
      specialize (Hnn r). lia.
  - rewrite (process_order_fails customer products now w Hall). apply Hnn.
Qed.

(** C1, evaluated on the code.  [P] (id 1) has one unit in stock and every
    stock is at least 0.  The buyer adds [P] to the cart twice; both adds
    succeed, since each sees a stock of 1.  The purchase succeeds, every
    cart entry having passed the stock check before any stock was written,
    and it decrements the stock of [P] twice: the stock ends at -1. *)
Theorem duplicate_cart_entry_drives_stock_negative :
  let w0 := shop 100 1 250 [] in
  let w1 := snd (add_to_cart 1 1 w0) in
  let w2 := snd (add_to_cart 1 1 w1) in
  let w3 := snd (make_purchase 1 0 w2) in
  (forall r, 0 <= Product.stock (product_objs w0 r)) /\
  fst (add_to_cart 1 1 w0) = true /\
  fst (add_to_cart 1 1 w1) = true /\
  CustomerAgent.shopping_cart (customer_objs w2 1%positive)
  = [1%positive; 1%positive] /\
  fst (make_purchase 1 0 w2) = true /\
  Product.stock (product_objs w3 1%positive) = -1 /\
  Product.stock
    (product_objs (run w0 [AddToCart 1 1; AddToCart 1 1; MakePurchase 1 0])
                  1%positive) = -1.
Proof.
  intros w0 w1 w2 w3. split; [|repeat split].
  intros r. unfold w0, shop, upd. cbn [product_objs].
  destruct (Pos.eqb r 1); simpl; lia.
Qed.

(** * Further properties of the operations *)

(** ** When a purchase succeeds, and what it leaves *)

Lemma forallb_check_stock (w : World) (l : list ref) :
  forallb (fun r => check_stock w (Product.id (product_objs w r))) l = true <->
  (forall r, In r l -> check_stock w (Product.id (product_objs w r)) = true).
Proof. apply forallb_forall. Qed.

Lemma truthy_true {A : Type} (l : list A) : truthy l = true <-> l <> [].
Proof. destruct l; simpl; split; intros; congruence. Qed.

(** X1. [make_purchase] returns [True] exactly when the cart is not empty,
    its total is at most the budget, and every entry of the cart passes
    [check_stock]; in every other case it returns [False] and the state is
    the one before the call. *)
Theorem make_purchase_succeeds_iff (self : ref) (now : Z) (w : World) :
  let c := customer_objs w self in
  let cart := CustomerAgent.shopping_cart c in
  (fst (make_purchase self now w) = true <->
   PrimFloat.leb (sum_prices (product_objs w) cart) (CustomerAgent.budget c)
   = true /\
   cart <> [] /\
   (forall r, In r cart ->
              check_stock w (Product.id (product_objs w r)) = true)) /\
  (fst (make_purchase self now w) = false ->
   snd (make_purchase self now w) = w).
Proof.
  intros c cart. split; [split|].
  - intros Hok. apply pair_eta in Hok.
    destruct (make_purchase_success _ _ _ _ Hok) as (Hle & Hne & Hall & _).
    rewrite forallb_check_stock in Hall. auto.
  - intros (Hle & Hne & Hall).
    rewrite <- forallb_check_stock in Hall. rewrite <- truthy_true in Hne.
    unfold make_purchase, view_cart. fold c. fold cart.
    rewrite Hle, Hne. simpl andb.
    now rewrite (process_order_succeeds self cart now w Hall).
  - intros Hno. apply pair_eta in Hno.
    now apply make_purchase_failure in Hno.
Qed.

(** X2. After a successful purchase the buyer's cart is empty and the
    purchase history is the old one followed by the cart; the stock of every
    product object has dropped by the number of times the cart held it; the
    catalogue and every other customer are as before; and a second purchase
    right afterwards returns [False] and changes nothing. *)
Theorem make_purchase_effects (self : ref) (now : Z) (w : World) :
  fst (make_purchase self now w) = true ->
  let w' := snd (make_purchase self now w) in
  let c := customer_objs w self in
  let cart := CustomerAgent.shopping_cart c in
  CustomerAgent.shopping_cart (customer_objs w' self) = [] /\
  CustomerAgent.purchase_history (customer_objs w' self) =
  CustomerAgent.purchase_history c ++ cart /\
  (forall r, Product.stock (product_objs w' r) =
             Product.stock (product_objs w r)
             - Z.of_nat (count_occ Pos.eq_dec cart r)) /\
  Marketplace.products (market w') = Marketplace.products (market w) /\
  (forall other, other <> self -> customer_objs w' other = customer_objs w other) /\
  (forall later, make_purchase self later w' = (false, w')).
Proof.
  intros Hok w' c cart. apply pair_eta in Hok. fold w' in Hok.
  destruct (make_purchase_success _ _ _ _ Hok) as (_ & _ & _ & Hw').
  fold c in Hw'. fold cart in Hw'.
  assert (Hcart : CustomerAgent.shopping_cart (customer_objs w' self) = []).
  { rewrite Hw'. cbn [customer_objs]. now rewrite upd_same. }
  split; [exact Hcart|].
  split; [rewrite Hw'; cbn [customer_objs]; now rewrite upd_same|].
  split; [intros r; rewrite Hw'; cbn [product_objs];
          apply decrement_stock_count|].
  split; [now rewrite Hw'|].
  split; [intros other Hne; rewrite Hw'; cbn [customer_objs];
          now apply upd_other|].
  intros later. unfold make_purchase. rewrite Hcart. simpl truthy.
  now rewrite andb_false_r.
Qed.

Lemma make_purchase_effects_witness :
  let w := shop 100 3 350 [1%positive; 1%positive] in
  let w' := snd (make_purchase 1 0 w) in
  CustomerAgent.shopping_cart (customer_objs w' 1%positive) = [] /\
  CustomerAgent.purchase_history (customer_objs w' 1%positive) =
  [1%positive; 1%positive] /\
  Product.stock (product_objs w' 1%positive) = 1 /\
  make_purchase 1 7 w' = (false, w').
Proof.
  intros w w'.
  destruct (make_purchase_effects 1 0 w) as (H1 & H2 & H3 & _ & _ & H6).
  - reflexivity.
  - split; [exact H1|]. split; [exact H2|].
    split; [exact (H3 1%positive)|exact (H6 7)].
Defined.

(** ** Invariants of sequences of operations *)

Lemma run_ind (P : World -> Prop) (w : World) :
  P w -> (forall w' o, P w' -> P (step w' o)) -> forall ops, P (run w ops).
Proof.
  intros Hw Hstep ops. induction ops as [|o ops IH] using rev_ind.
  - exact Hw.
  - rewrite run_snoc. now apply Hstep.
Qed.

Lemma units_sold_commit (w w' : World) (o : Order.t) (r : ref) :
  Marketplace.orders (market w') = Marketplace.orders (market w) ++ [o] ->
  units_sold w' r =
  units_sold w r + Z.of_nat (count_occ Pos.eq_dec (Order.products o) r).
Proof.
  intros Ho. unfold units_sold. rewrite Ho, map_app, list_sum_app. simpl. lia.
Qed.

Lemma step_accounting (w : World) (o : op) (r : ref) :
  Product.stock (product_objs (step w o) r) + units_sold (step w o) r =
  Product.stock (product_objs w r) + units_sold w r.
Proof.
  destruct (step_has_effect w o) as [Hobjs Hord _|c ps now _ Hobjs Hord _ _].
  - unfold units_sold. now rewrite Hobjs, Hord.
  - rewrite (units_sold_commit _ _ _ r Hord), Hobjs, decrement_stock_count.
    cbn [Order.products]. lia.
Qed.

(** X3. Every unit that leaves the stock is in the ledger: through any
    sequence of operations, for every product object, the stock plus the
    number of units of it held by the orders of the ledger stays the same.
    In particular the stock never grows: the code has no restocking. *)
Theorem stock_accounting (w : World) (ops : list op) (r : ref) :
  Product.stock (product_objs (run w ops) r) + units_sold (run w ops) r =
  Product.stock (product_objs w r) + units_sold w r /\
  units_sold w r <= units_sold (run w ops) r /\
  Product.stock (product_objs (run w ops) r) <= Product.stock (product_objs w r).
Proof.
  assert (Hacc : Product.stock (product_objs (run w ops) r)
                 + units_sold (run w ops) r =
                 Product.stock (product_objs w r) + units_sold w r).
  { apply (run_ind (fun v => Product.stock (product_objs v r) + units_sold v r =
                             Product.stock (product_objs w r) + units_sold w r));
      [reflexivity|].
    intros w' o IH. now rewrite step_accounting. }
  assert (Hmono : units_sold w r <= units_sold (run w ops) r).
  { apply (run_ind (fun v => units_sold w r <= units_sold v r)); [lia|].
    intros w' o IH.
    destruct (step_has_effect w' o) as [_ Hord _|c ps now _ _ Hord _ _].
    - unfold units_sold in *. now rewrite Hord.
    - rewrite (units_sold_commit _ _ _ r Hord). lia. }
  repeat split; [exact Hacc|exact Hmono|lia].
Qed.

Lemma decrement_stock_same_fields (products : list ref) (h : ref -> Product.t)
    (r : ref) :
  same_product_but_stock (decrement_stock products h r) (h r).
Proof.
  unfold decrement_stock. revert h.
  induction products as [|q products IH]; intros h; simpl.
  - now repeat split.
  - destruct (IH (upd h q (Product.set_stock (Product.stock (h q) - 1) (h q))))
      as (H1 & H2 & H3 & H4 & H5).
    unfold same_product_but_stock. rewrite H1, H2, H3, H4, H5.
    unfold upd. destruct (Pos.eqb_spec r q) as [->|_]; now repeat split.
Qed.

(** X4. Stock is the only field of a product the operations write: after
    any sequence of operations every product object has the id, name,
    category, price and seller id it had before. *)
Theorem product_fields_frozen (w : World) (ops : list op) (r : ref) :
  same_product_but_stock (product_objs (run w ops) r) (product_objs w r).
Proof.
  apply (run_ind (fun v => same_product_but_stock (product_objs v r)
                                                  (product_objs w r))).
  - now repeat split.
  - intros w' o (H1 & H2 & H3 & H4 & H5).
    destruct (step_has_effect w' o) as [-> _ _|c ps now _ -> _ _ _].
    + now repeat split.
    + destruct (decrement_stock_same_fields ps (product_objs w') r)
        as (G1 & G2 & G3 & G4 & G5).
      unfold same_product_but_stock. now rewrite G1, G2, G3, G4, G5.
Qed.

Lemma step_ledger_grows (w : World) (o : op) :
  exists new,
    Marketplace.orders (market (step w o)) = Marketplace.orders (market w) ++ new /\
    Marketplace.order_counter (market (step w o)) =
    Marketplace.order_counter (market w) + Z.of_nat (List.length new) /\
    map Order.order_id new =
    map (fun k => Marketplace.order_counter (market w) + Z.of_nat k)
        (seq 0 (List.length new)).
Proof.
  destruct (step_has_effect w o) as [_ Hord Hcnt|c ps now _ _ Hord Hcnt _].
  - exists []. rewrite Hord, Hcnt, app_nil_r. simpl. repeat split. lia.
  - eexists [_]. rewrite Hord, Hcnt. cbn [List.length seq map Order.order_id].
    repeat split. now rewrite Z.add_0_r.
Qed.

Lemma seq_from (a b : nat) :
  seq a b = map (fun k => (a + k)%nat) (seq 0 b).
Proof.
  induction a as [|a IH]; simpl.
  - now rewrite map_id.
  - now rewrite <- seq_shift, IH, map_map.
Qed.

(** X5. The ledger is append-only and numbered without gaps: after any
    sequence of operations the ledger is the old ledger followed by the
    orders committed meanwhile, the counter has advanced by their number,
    and their ids are the consecutive integers from the old value of the
    counter on. *)
Theorem ledger_append_only (w : World) (ops : list op) :
  exists new,
    Marketplace.orders (market (run w ops)) = Marketplace.orders (market w) ++ new /\
    Marketplace.order_counter (market (run w ops)) =
    Marketplace.order_counter (market w) + Z.of_nat (List.length new) /\
    map Order.order_id new =
    map (fun k => Marketplace.order_counter (market w) + Z.of_nat k)
        (seq 0 (List.length new)).
Proof.
  apply (run_ind (fun v => exists new,
    Marketplace.orders (market v) = Marketplace.orders (market w) ++ new /\
    Marketplace.order_counter (market v) =
    Marketplace.order_counter (market w) + Z.of_nat (List.length new) /\
    map Order.order_id new =
    map (fun k => Marketplace.order_counter (market w) + Z.of_nat k)
        (seq 0 (List.length new)))).
  - exists []. rewrite app_nil_r. simpl. repeat split. lia.
  - intros w' o (new & Hord & Hcnt & Hids).
    destruct (step_ledger_grows w' o) as (more & Hord' & Hcnt' & Hids').
    exists (new ++ more). rewrite Hord', Hord, Hcnt', app_assoc.
    rewrite length_app, Nat2Z.inj_add, map_app, Hids, Hids', seq_app, map_app.
    repeat split; [lia|]. f_equal. simpl.
    rewrite (seq_from (List.length new)), map_map.
    apply map_ext. intros k. rewrite Hcnt. lia.
Qed.

Lemma customer_step_orders (w : World) (o : op) :
  customer_op o = true ->
  Marketplace.orders (market (step w o)) = Marketplace.orders (market w) \/
  exists order,
    Marketplace.orders (market (step w o)) =
    Marketplace.orders (market w) ++ [order] /\
    Order.products order <> [].
Proof.
  destruct o as [p|c p|c i|c now|c ps now]; simpl; intros Hop;
    try discriminate.
  - now left.
  - left. unfold add_to_cart. now destruct (_ && _).
  - now left.
  - destruct (make_purchase c now w) as [[|] w'] eqn:Hbuy; simpl.
    + destruct (make_purchase_success _ _ _ _ Hbuy) as (_ & Hne & _ & ->).
      right. eexists. split; [reflexivity|exact Hne].
    + apply make_purchase_failure in Hbuy. subst w'. now left.
Qed.

(** X6. An order committed by [make_purchase] holds at least one product:
    along any sequence of customer operations (catalogue additions, cart
    changes, purchases) a ledger without empty orders stays without empty
    orders.  A direct call of [process_order] with an empty list is not
    refused, though: it ledgers an order without products and advances the
    counter, writing no stock. *)
Theorem purchases_are_never_empty :
  (forall (ops : list op) (w : World),
      forallb customer_op ops = true ->
      Forall (fun o => Order.products o <> []) (Marketplace.orders (market w)) ->
      Forall (fun o => Order.products o <> [])
             (Marketplace.orders (market (run w ops)))) /\
  (forall (customer : ref) (now : Z) (w : World),
      let r := process_order customer [] now w in
      exists order,
        fst r = Some order /\
        Order.products order = [] /\
        Marketplace.orders (market (snd r)) =
        Marketplace.orders (market w) ++ [order] /\
        Marketplace.order_counter (market (snd r)) =
        Marketplace.order_counter (market w) + 1 /\
        product_objs (snd r) = product_objs w).
Proof.
  split.
  - intros ops. induction ops as [|o ops IH] using rev_ind; intros w Hops Hw.
    + exact Hw.
    + rewrite forallb_app in Hops. apply andb_true_iff in Hops.
      destruct Hops as [Hops Ho]. simpl in Ho. rewrite andb_true_r in Ho.
      rewrite run_snoc. specialize (IH w Hops Hw).
      destruct (customer_step_orders (run w ops) o Ho)
        as [-> | (order & -> & Hne)]; [exact IH|].
      apply Forall_app. split; [exact IH|]. now repeat constructor.
  - intros customer now w r. subst r. eexists. now repeat split.
Qed.

Lemma purchases_are_never_empty_witness :
  let w := run (shop 10 3 150 [])
               [AddToCart 1 1; MakePurchase 1 0; RemoveFromCart 1 1;
                MakePurchase 1 1] in
  Forall (fun o => Order.products o <> []) (Marketplace.orders (market w)).
Proof.
  intros w. destruct purchases_are_never_empty as [Hrun _].
  apply (Hrun [AddToCart 1 1; MakePurchase 1 0; RemoveFromCart 1 1;
               MakePurchase 1 1]
              (shop 10 3 150 [])); [reflexivity|constructor].
Defined.

Lemma step_customer_frame (w : World) (o : op) (c : ref) :
  let a := customer_objs w c in
  let b := customer_objs (step w o) c in
  CustomerAgent.agent_id b = CustomerAgent.agent_id a /\
  CustomerAgent.name b = CustomerAgent.name a /\
  CustomerAgent.preferences b = CustomerAgent.preferences a /\
  (exists bought,
      CustomerAgent.purchase_history b =
      CustomerAgent.purchase_history a ++ bought) /\
  (exists added,
      Marketplace.products (market (step w o)) =
      Marketplace.products (market w) ++ added).
Proof.
  assert (Hnil : forall (A : Type) (l : list A), exists x, l = l ++ x)
    by (intros A l; exists []; now rewrite app_nil_r).
  destruct o as [p|c' p|c' i|c' now|c' ps now]; simpl.
  - repeat split; auto. now exists [p].
  - unfold add_to_cart. destruct (_ && _); simpl; [|now repeat split].
    unfold upd. destruct (Pos.eqb_spec c c') as [->|_]; now repeat split.
  - unfold upd. destruct (Pos.eqb_spec c c') as [->|_]; now repeat split.
  - destruct (make_purchase c' now w) as [[|] w'] eqn:Hbuy; simpl.
    + destruct (make_purchase_success _ _ _ _ Hbuy) as (_ & _ & _ & ->).
      simpl. unfold upd. destruct (Pos.eqb_spec c c') as [->|_]; simpl;
        repeat split; auto.
      now eexists.
    + apply make_purchase_failure in Hbuy. subst w'. now repeat split.
  - unfold process_order. destruct (forallb _ _); simpl; now repeat split.
Qed.

(** X7. Nothing is ever taken back: after any sequence of operations every
    customer has the agent id, name and preferences it had, its purchase
    history is the old history followed by what it bought meanwhile, and
    the catalogue is the old catalogue followed by the products added
    meanwhile; no operation removes a catalogue entry or a history entry. *)
Theorem history_and_catalogue_append_only
    (w : World) (ops : list op) (c : ref) :
  let a := customer_objs w c in
  let b := customer_objs (run w ops) c in
  CustomerAgent.agent_id b = CustomerAgent.agent_id a /\
  CustomerAgent.name b = CustomerAgent.name a /\
  CustomerAgent.preferences b = CustomerAgent.preferences a /\
  (exists bought,
      CustomerAgent.purchase_history b =
      CustomerAgent.purchase_history a ++ bought) /\
  (exists added,
      Marketplace.products (market (run w ops)) =
      Marketplace.products (market w) ++ added).
Proof.
  cbv zeta.
  apply (run_ind (fun v =>
    CustomerAgent.agent_id (customer_objs v c) =
    CustomerAgent.agent_id (customer_objs w c) /\
    CustomerAgent.name (customer_objs v c) =
    CustomerAgent.name (customer_objs w c) /\
    CustomerAgent.preferences (customer_objs v c) =
    CustomerAgent.preferences (customer_objs w c) /\
    (exists bought,
        CustomerAgent.purchase_history (customer_objs v c) =
        CustomerAgent.purchase_history (customer_objs w c) ++ bought) /\
    (exists added,
        Marketplace.products (market v) =
        Marketplace.products (market w) ++ added))).
  - repeat split; auto; exists []; now rewrite app_nil_r.
  - intros w' o (H1 & H2 & H3 & (bought & H4) & (added & H5)).
    destruct (step_customer_frame w' o c)
      as (G1 & G2 & G3 & (bought' & G4) & (added' & G5)).
    rewrite G1, G2, G3, G4, G5, H1, H2, H3, H4, H5, <- !app_assoc.
    repeat split; eexists; reflexivity.
Qed.

(** ** The cart *)

Lemma count_occ_filter (f : ref -> bool) (l : list ref) (r : ref) :
  count_occ Pos.eq_dec (filter f l) r =
  if f r then count_occ Pos.eq_dec l r else 0%nat.
Proof.
  induction l as [|q l IH]; simpl; [now destruct (f r)|].
  destruct (f q) eqn:Hq; simpl; destruct (Pos.eq_dec q r) as [->|Hne];
    rewrite IH; try rewrite Hq; reflexivity.
Qed.

Lemma filter_idempotent {A : Type} (f : A -> bool) (l : list A) :
  filter f (filter f l) = filter f l.
Proof.
  induction l as [|x l IH]; simpl; [reflexivity|].
  destruct (f x) eqn:Hx; simpl; [rewrite Hx; f_equal|]; exact IH.
Qed.

Lemma filter_all {A : Type} (f : A -> bool) (l : list A) :
  (forall x, In x l -> f x = true) -> filter f l = l.
Proof.
  induction l as [|x l IH]; simpl; intros Hall; [reflexivity|].
  rewrite (Hall x (or_introl eq_refl)). f_equal. apply IH. auto.
Qed.

(** X8. [remove_from_cart] takes every entry with the given id out of the
    cart, not only the first: afterwards no entry carries the id, every
    object with another id is in the cart as often as before (and in the
    same order), and removing the same id again changes nothing more.  The
    budget, the purchase history, the products, the marketplace and the
    other customers are untouched. *)
Theorem remove_from_cart_removes_every_unit
    (self : ref) (product_id : Z) (w : World) :
  let w' := remove_from_cart self product_id w in
  let cart := CustomerAgent.shopping_cart (customer_objs w self) in
  let cart' := CustomerAgent.shopping_cart (customer_objs w' self) in
  (forall r, In r cart' -> Product.id (product_objs w' r) <> product_id) /\
  (forall r, Product.id (product_objs w r) <> product_id ->
             count_occ Pos.eq_dec cart' r = count_occ Pos.eq_dec cart r) /\
  (forall r, In r cart' <-> In r cart /\ Product.id (product_objs w r) <> product_id) /\
  CustomerAgent.shopping_cart
    (customer_objs (remove_from_cart self product_id w') self) = cart' /\
  CustomerAgent.budget (customer_objs w' self) =
  CustomerAgent.budget (customer_objs w self) /\
  CustomerAgent.purchase_history (customer_objs w' self) =
  CustomerAgent.purchase_history (customer_objs w self) /\
  product_objs w' = product_objs w /\
  market w' = market w /\
  (forall other, other <> self -> customer_objs w' other = customer_objs w other).
Proof.
  intros w' cart cart'.
  assert (Hcart' : cart' =
                   filter (fun r => negb (Product.id (product_objs w r) =? product_id))
                          cart).
  { unfold cart', w', remove_from_cart. cbn [customer_objs].
    now rewrite upd_same. }
  assert (Hmem : forall r, In r cart' <->
                           In r cart /\ Product.id (product_objs w r) <> product_id).
  { intros r. rewrite Hcart', filter_In, negb_true_iff, Z.eqb_neq. tauto. }
  split; [intros r Hr; now apply Hmem in Hr|].
  split.
  { intros r Hr. rewrite Hcart', count_occ_filter.
    apply Z.eqb_neq in Hr. now rewrite Hr. }
  split; [exact Hmem|].
  split.
  { unfold remove_from_cart at 1. cbn [customer_objs]. rewrite upd_same.
    cbn [CustomerAgent.shopping_cart]. fold cart'.
    rewrite Hcart'. apply filter_idempotent. }
  unfold w', remove_from_cart. cbn [customer_objs product_objs market].
  rewrite upd_same. repeat split.
  intros other Hne. now apply upd_other.
Qed.

(** X9. Adding a product and then removing its id restores the cart, when
    the cart held no entry with that id before; in general the cart that
    results is the old cart without the entries of that id. *)
Theorem add_then_remove (self product : ref) (w : World) :
  fst (add_to_cart self product w) = true ->
  let pid := Product.id (product_objs w product) in
  let cart := CustomerAgent.shopping_cart (customer_objs w self) in
  let w2 := remove_from_cart self pid (snd (add_to_cart self product w)) in
  CustomerAgent.shopping_cart (customer_objs w2 self) =
  filter (fun r => negb (Product.id (product_objs w r) =? pid)) cart /\
  ((forall r, In r cart -> Product.id (product_objs w r) <> pid) ->
   CustomerAgent.shopping_cart (customer_objs w2 self) = cart).
Proof.
  intros Hok pid cart w2.
  assert (Hcart2 : CustomerAgent.shopping_cart (customer_objs w2 self) =
                   filter (fun r => negb (Product.id (product_objs w r) =? pid))
                          cart).
  { unfold w2. rewrite (add_to_cart_accepted _ _ _ Hok).
    unfold remove_from_cart. cbn [customer_objs product_objs].
    rewrite !upd_same.
    cbn [CustomerAgent.shopping_cart CustomerAgent.set_shopping_cart].
    fold cart. rewrite filter_app. cbn [filter]. fold pid.
    rewrite Z.eqb_refl. cbn [negb]. apply app_nil_r. }
  split; [exact Hcart2|].
  intros Hfresh. rewrite Hcart2. apply filter_all.
  intros r Hr. apply negb_true_iff, Z.eqb_neq. now apply Hfresh.
Qed.

Lemma add_then_remove_witness :
  let w := shop 10 3 150 [] in
  CustomerAgent.shopping_cart
    (customer_objs (remove_from_cart 1 1 (snd (add_to_cart 1 1 w))) 1%positive)
  = [].
Proof.
  intros w. destruct (add_then_remove 1 1 w) as [_ Hfresh]; [reflexivity|].
  apply Hfresh. intros r [].
Defined.

(** X10. A successful [add_to_cart] appends the product to the end of the
    cart; added to an empty cart, the total [view_cart] then reports is the
    price of the product (added to the [0] the sum starts from).  The call
    writes neither the budget, nor the purchase history, nor a stock, nor
    the marketplace, nor another customer. *)
Theorem add_to_cart_effects (self product : ref) (w : World) :
  fst (add_to_cart self product w) = true ->
  let w' := snd (add_to_cart self product w) in
  CustomerAgent.shopping_cart (customer_objs w' self) =
  CustomerAgent.shopping_cart (customer_objs w self) ++ [product] /\
  (CustomerAgent.shopping_cart (customer_objs w self) = [] ->
   view_cart self w' =
   PrimFloat.add 0 (Product.price (product_objs w product))) /\
  CustomerAgent.budget (customer_objs w' self) =
  CustomerAgent.budget (customer_objs w self) /\
  CustomerAgent.purchase_history (customer_objs w' self) =
  CustomerAgent.purchase_history (customer_objs w self) /\
  product_objs w' = product_objs w /\
  market w' = market w /\
  (forall other, other <> self -> customer_objs w' other = customer_objs w other).
Proof.
  intros Hok w'.
  assert (Hw' : w' = mkWorld (product_objs w)
                  (upd (customer_objs w) self
                       (CustomerAgent.set_shopping_cart
                          (CustomerAgent.shopping_cart (customer_objs w self)
                             ++ [product])
                          (customer_objs w self)))
                  (market w))
    by apply (add_to_cart_accepted _ _ _ Hok).
  unfold view_cart. rewrite Hw'.
  cbn [customer_objs product_objs market]. rewrite upd_same.
  cbn [CustomerAgent.shopping_cart CustomerAgent.set_shopping_cart
       CustomerAgent.budget CustomerAgent.purchase_history].
  split; [reflexivity|]. split; [intros ->; reflexivity|].
  repeat split. intros other Hne. now apply upd_other.
Qed.

Lemma add_to_cart_effects_witness :
  let w := shop 10 3 150 [] in
  let w' := snd (add_to_cart 1 1 w) in
  CustomerAgent.shopping_cart (customer_objs w' 1%positive) = [1%positive] /\
  view_cart 1 w' = 10%float /\
  CustomerAgent.budget (customer_objs w' 1%positive) = 150%float.
Proof.
  intros w w'.
  destruct (add_to_cart_effects 1 1 w) as (H1 & H2 & H3 & _); [reflexivity|].
  split; [exact H1|]. split; [exact (H2 eq_refl)|exact H3].
Defined.

(** ** What can be added to a cart *)

Lemma find_agree {A : Type} (f g : A -> bool) (l : list A) :
  (forall x, f x = g x) -> find f l = find g l.
Proof.
  intros Hfg. induction l as [|x l IH]; simpl; [reflexivity|].
  now rewrite Hfg, IH.
Qed.

Lemma find_first_of_unique_key (key : ref -> Z) (l : list ref) (r : ref) :
  NoDup (map key l) -> In r l ->
  find (fun q => key q =? key r) l = Some r.
Proof.
  induction l as [|x l IH]; simpl; intros Hnd Hin; [contradiction|].
  inversion Hnd as [|? ? Hx Hnd']; subst.
  destruct Hin as [->|Hin]; [now rewrite Z.eqb_refl|].
  destruct (Z.eqb_spec (key x) (key r)) as [Heq|_]; [|now apply IH].
  exfalso. apply Hx. rewrite Heq. now apply in_map.
Qed.

Lemma check_stock_of_entry (w : World) (r : ref) :
  catalogue_entry w r ->
  check_stock w (Product.id (product_objs w r)) =
  (0 <? Product.stock (product_objs w r)).
Proof. intros Hr. unfold check_stock. now rewrite Hr. Qed.

(** X11. A product that [get_available_products] lists passes
    [check_stock] when it is the catalogue entry [check_stock] consults for
    its id, which is the case for every catalogue entry when the ids of the
    catalogue are pairwise distinct.  When two catalogue entries share an
    id the first one decides: a listed product can then fail the stock
    check, and no customer can add it to a cart. *)
Theorem listed_products_and_stock_check :
  (forall (w : World) (r : ref),
      In r (get_available_products w) -> catalogue_entry w r ->
      check_stock w (Product.id (product_objs w r)) = true) /\
  (forall (w : World) (r : ref),
      NoDup (map (fun q => Product.id (product_objs w q))
                 (Marketplace.products (market w))) ->
      In r (Marketplace.products (market w)) ->
      catalogue_entry w r) /\
  (exists (w : World) (r : ref),
      In r (get_available_products w) /\
      check_stock w (Product.id (product_objs w r)) = false /\
      forall c, fst (add_to_cart c r w) = false).
Proof.
  split; [|split].
  - intros w r Hin Hr. rewrite (check_stock_of_entry w r Hr).
    unfold get_available_products in Hin. now apply filter_In in Hin.
  - intros w r Hnd Hin. unfold catalogue_entry.
    now apply (find_first_of_unique_key
                 (fun q => Product.id (product_objs w q))).
  - exists (shop_two_entries 0 3 100 []), 2%positive.
    split; [simpl; auto|]. split; [reflexivity|].
    intros c. rewrite add_to_cart_result. reflexivity.
Qed.

Lemma listed_products_and_stock_check_witness :
  let w := shop 10 3 150 [] in
  catalogue_entry w 1%positive /\
  check_stock w (Product.id (product_objs w 1%positive)) = true.
Proof.
  intros w.
  destruct listed_products_and_stock_check as (Hpass & Hunique & _).
  assert (Hentry : catalogue_entry w 1%positive).
  { apply Hunique; [repeat constructor; simpl; tauto|simpl; auto]. }
  split; [exact Hentry|].
  apply Hpass; [simpl; auto|exact Hentry].
Defined.

Lemma category_in_In (a : ProductCategory) (l : list ProductCategory) :
  category_in a l = true <-> In a l.
Proof.
  unfold category_in. rewrite existsb_exists. split.
  - intros (b & Hb & Hab). destruct a, b; try discriminate; exact Hb.
  - intros Ha. exists a. split; [exact Ha|now destruct a].
Qed.

(** X12. Every product [browse_products] returns is in the catalogue with
    positive stock, has a category among the customer's preferences and a
    price within the budget; if it is the catalogue entry consulted for its
    id, adding it to the cart succeeds. *)
Theorem browsed_products_can_be_added (self p : ref) (w : World) :
  In p (browse_products self w) ->
  In p (Marketplace.products (market w)) /\
  0 < Product.stock (product_objs w p) /\
  In (Product.category (product_objs w p))
     (CustomerAgent.preferences (customer_objs w self)) /\
  PrimFloat.leb (Product.price (product_objs w p))
                (CustomerAgent.budget (customer_objs w self)) = true /\
  (catalogue_entry w p -> fst (add_to_cart self p w) = true).
Proof.
  unfold browse_products, get_available_products.
  rewrite !filter_In, andb_true_iff, category_in_In, Z.ltb_lt.
  intros ((Hin & Hstock) & Hcat & Hprice).
  repeat split; auto.
  intros Hentry. rewrite add_to_cart_result, (check_stock_of_entry w p Hentry).
  rewrite Hprice. now apply Z.ltb_lt in Hstock as ->.
Qed.

Lemma browsed_products_can_be_added_witness :
  let w := shop 10 3 150 [] in
  browse_products 1 w = [1%positive] /\
  fst (add_to_cart 1 1 w) = true.
Proof.
  intros w. split; [reflexivity|].
  destruct (browsed_products_can_be_added 1 1 w) as (_ & _ & _ & _ & Hadd).
  - simpl. auto.
  - apply Hadd. reflexivity.
Defined.

Lemma catalogue_entry_agree (w w' : World) (r : ref) :
  (forall q, Product.id (product_objs w' q) = Product.id (product_objs w q)) ->
  Marketplace.products (market w') = Marketplace.products (market w) ->
  catalogue_entry w r -> catalogue_entry w' r.
Proof.
  unfold catalogue_entry. intros Hid Hcat Hr. rewrite Hcat, <- Hr.
  apply find_agree. intros q. now rewrite !Hid.
Qed.

Lemma sold_out_refused (w : World) (r : ref) :
  catalogue_entry w r -> Product.stock (product_objs w r) <= 0 ->
  check_stock w (Product.id (product_objs w r)) = false /\
  ~ In r (get_available_products w) /\
  (forall c, fst (add_to_cart c r w) = false) /\
  (forall c products now,
      In r products -> process_order c products now w = (None, w)).
Proof.
  intros Hentry Hstock.
  assert (Hno : check_stock w (Product.id (product_objs w r)) = false).
  { rewrite (check_stock_of_entry w r Hentry). apply Z.ltb_ge. exact Hstock. }
  split; [exact Hno|]. split; [|split].
  - unfold get_available_products. rewrite filter_In, Z.ltb_lt. lia.
  - intros c. now rewrite add_to_cart_result, Hno.
  - intros c products now Hin. apply process_order_fails, stock_check_fails.
    now exists r.
Qed.

(** X13. Selling the last units closes the product: when a purchase
    succeeds and the cart held at least as many units of a catalogue entry
    as were in stock, then afterwards that entry fails [check_stock], is not
    listed by [get_available_products], cannot be added to any cart, and
    every order that contains it is refused without any change. *)
Theorem last_unit_sold (self : ref) (now : Z) (w : World) (r : ref) :
  fst (make_purchase self now w) = true ->
  catalogue_entry w r ->
  Product.stock (product_objs w r) <=
  Z.of_nat (count_occ Pos.eq_dec
              (CustomerAgent.shopping_cart (customer_objs w self)) r) ->
  let w' := snd (make_purchase self now w) in
  check_stock w' (Product.id (product_objs w' r)) = false /\
  ~ In r (get_available_products w') /\
  (forall c, fst (add_to_cart c r w') = false) /\
  (forall c products later,
      In r products -> process_order c products later w' = (None, w')).
Proof.
  intros Hok Hentry Hunits w'. apply pair_eta in Hok. fold w' in Hok.
  destruct (make_purchase_success _ _ _ _ Hok) as (_ & _ & _ & Hw').
  apply sold_out_refused.
  - apply (catalogue_entry_agree w); [|now rewrite Hw'|exact Hentry].
    intros q. rewrite Hw'. cbn [product_objs].
    apply decrement_stock_same_fields.
  - rewrite Hw'. cbn [product_objs]. rewrite decrement_stock_count. lia.
Qed.

Lemma last_unit_sold_witness :
  let w := shop 100 1 150 [1%positive] in
  let w' := snd (make_purchase 1 0 w) in
  check_stock w' (Product.id (product_objs w' 1%positive)) = false /\
  ~ In 1%positive (get_available_products w') /\
  (forall c, fst (add_to_cart c 1 w') = false) /\
  (forall c products later,
      In 1%positive products -> process_order c products later w' = (None, w')).
Proof.
  intros w w'.
  apply (last_unit_sold 1 0 w 1%positive); [reflexivity|reflexivity|].
  simpl. lia.
Defined.

(** ** Sellers and the registry *)

Lemma find_snoc {A : Type} (f : A -> bool) (l : list A) (x : A) :
  find f (l ++ [x]) =
  match find f l with
  | Some y => Some y
  | None => if f x then Some x else None
  end.
Proof.
  induction l as [|y l IH]; simpl; [reflexivity|].
  now destruct (f y).
Qed.

Lemma find_absent {A : Type} (f : A -> bool) (l : list A) :
  (forall x, In x l -> f x = false) -> find f l = None.
Proof.
  induction l as [|y l IH]; simpl; intros Hall; [reflexivity|].
  rewrite (Hall y (or_introl eq_refl)). apply IH. auto.
Qed.

(** X14. [get_seller_name] answers ["Desconocido"] for an id no registered
    seller carries.  Registering a seller whose id is not yet registered
    makes its name the answer for its id; registering a seller never
    changes the answer for an id that is already registered: the first
    registration of an id wins. *)
Theorem seller_name_lookup (s : System) :
  (forall i,
      (forall u, In u (sellers s) ->
                 SellerAgent.agent_id (seller_objs s u) <> i) ->
      get_seller_name i s = "Desconocido"%string) /\
  (forall v,
      (forall u, In u (sellers s) ->
                 SellerAgent.agent_id (seller_objs s u) <>
                 SellerAgent.agent_id (seller_objs s v)) ->
      get_seller_name (SellerAgent.agent_id (seller_objs s v))
                      (register_seller v s) =
      SellerAgent.name (seller_objs s v)) /\
  (forall v i,
      (exists u, In u (sellers s) /\
                 SellerAgent.agent_id (seller_objs s u) = i) ->
      get_seller_name i (register_seller v s) = get_seller_name i s).
Proof.
  split; [|split].
  - intros i Hnone. unfold get_seller_name.
    rewrite find_absent; [reflexivity|].
    intros u Hu. apply Z.eqb_neq. now apply Hnone.
  - intros v Hnew. unfold get_seller_name, register_seller.
    cbn [sellers seller_objs]. rewrite find_snoc, find_absent.
    + now rewrite Z.eqb_refl.
    + intros u Hu. apply Z.eqb_neq. now apply Hnew.
  - intros v i (u & Hu & Hi). unfold get_seller_name, register_seller.
    cbn [sellers seller_objs]. rewrite find_snoc.
    destruct (find _ (sellers s)) as [y|] eqn:Hfind; [reflexivity|].
    apply find_none with (x := u) in Hfind; [|exact Hu].
    apply Z.eqb_neq in Hfind. contradiction.
Qed.

Lemma seller_name_lookup_witness :
  let s := shop_system (shop 10 3 150 []) None in
  get_seller_name 7 s = "Desconocido"%string /\
  get_seller_name 0 (register_seller 2 s) = EmptyString /\
  get_seller_name 1 (register_seller 1 s) = "S"%string.
Proof.
  intros s. destruct (seller_name_lookup s) as (Hnone & Hnew & Hold).
  split; [|split].
  - apply Hnone. intros u [<-|[]]. discriminate.
  - apply (Hnew 2%positive). intros u [<-|[]]. discriminate.
  - rewrite (Hold 1%positive 1); [reflexivity|].
    exists 1%positive. split; [left|]; reflexivity.
Defined.

(** X15. [register_seller] appends the products the seller holds at that
    moment to the catalogue.  A product the seller adds afterwards is in
    the seller's list but not in the catalogue: unless the catalogue has an
    entry with the same id, it fails [check_stock] and no customer can add
    it to a cart. *)
Theorem product_added_after_registration (seller p : ref) (s : System) :
  let s1 := register_seller seller s in
  let s2 := seller_add_product seller p s1 in
  Marketplace.products (market (world s1)) =
  Marketplace.products (market (world s))
    ++ SellerAgent.products (seller_objs s seller) /\
  SellerAgent.products (seller_objs s2 seller) =
  SellerAgent.products (seller_objs s seller) ++ [p] /\
  world s2 = world s1 /\
  ((forall q, In q (Marketplace.products (market (world s1))) ->
              Product.id (product_objs (world s1) q) <>
              Product.id (product_objs (world s1) p)) ->
   check_stock (world s2) (Product.id (product_objs (world s2) p)) = false /\
   forall c, fst (add_to_cart c p (world s2)) = false).
Proof.
  intros s1 s2. split; [reflexivity|]. split.
  { unfold s2, seller_add_product. cbn [seller_objs]. now rewrite upd_same. }
  split; [reflexivity|].
  change (world s2) with (world s1). intros Hfresh.
  assert (Hno : check_stock (world s1)
                            (Product.id (product_objs (world s1) p)) = false).
  { unfold check_stock. rewrite find_absent; [reflexivity|].
    intros q Hq. apply Z.eqb_neq. now apply Hfresh. }
  split; [exact Hno|].
  intros c. now rewrite add_to_cart_result, Hno.
Qed.

Lemma product_added_after_registration_witness :
  let s := mkSystem (shop_two_entries 3 3 100 [])
                    (upd (fun _ => no_seller) 1%positive
                         (SellerAgent.mk 1 "S" [1%positive]))
                    [] [] None in
  let s2 := seller_add_product 1 3 (register_seller 1 s) in
  check_stock (world s2) (Product.id (product_objs (world s2) 3%positive))
  = false /\
  forall c, fst (add_to_cart c 3 (world s2)) = false.
Proof.
  intros s s2.
  destruct (product_added_after_registration 1 3 s) as (_ & _ & _ & Hdead).
  apply Hdead.
  intros q [<-|[<-|[<-|[]]]]; discriminate.
Defined.

Lemma fold_left_Zadd (l : list Z) (a : Z) :
  fold_left Z.add l a = a + fold_left Z.add l 0.
Proof.
  revert a. induction l as [|x l IH]; intros a; simpl; [lia|].
  rewrite (IH (a + x)), (IH x). lia.
Qed.

Lemma total_after_decrement (f : ref -> Z) (g : ref -> nat) (l : list ref) :
  fold_left Z.add (map (fun r => f r - Z.of_nat (g r)) l) 0 =
  fold_left Z.add (map f l) 0 - Z.of_nat (list_sum (map g l)).
Proof.
  induction l as [|x l IH]; simpl; [reflexivity|].
  rewrite (fold_left_Zadd _ (f x - Z.of_nat (g x))), (fold_left_Zadd _ (f x)).
  rewrite IH. lia.
Qed.

(** X16. A seller's list holds the very objects of the catalogue, so a sale
    shows in the seller's figures: after [process_order] has committed a
    list of products, the total stock [seller_analysis_menu] computes for a
    seller has dropped by the number of units of that seller's products in
    the list (a product the seller lists twice counted twice). *)
Theorem seller_sees_sales
    (seller customer : ref) (products : list ref) (now : Z) (s : System)
    (order : Order.t) :
  fst (process_order customer products now (world s)) = Some order ->
  let s' := with_world s (snd (process_order customer products now (world s))) in
  total_stock seller s' =
  total_stock seller s
  - Z.of_nat (list_sum (map (count_occ Pos.eq_dec products)
                            (SellerAgent.products (seller_objs s seller)))).
Proof.
  intros Hsome s'. unfold s', total_stock. revert Hsome.
  destruct (forallb (fun r => check_stock (world s)
                                (Product.id (product_objs (world s) r)))
                    products) eqn:Hall.
  - rewrite (process_order_succeeds customer products now (world s) Hall).
    intros _. cbn [snd with_world world seller_objs product_objs].
    rewrite <- total_after_decrement. f_equal. apply map_ext.
    intros r. apply decrement_stock_count.
  - rewrite (process_order_fails customer products now (world s) Hall).
    discriminate.
Qed.

Lemma seller_sees_sales_witness :
  let s := shop_system (shop 10 3 150 []) None in
  let r := process_order 1 [1%positive; 1%positive] 0 (world s) in
  total_stock 1 s = 3 /\
  total_stock 1 (with_world s (snd r)) = 3 - 2.
Proof.
  intros s r. split; [reflexivity|].
  apply (seller_sees_sales 1 1 [1%positive; 1%positive] 0 s
           (Order.mk 1 1 [1%positive; 1%positive] 20 "COMPLETED" 0)).
  reflexivity.
Defined.

(** ** Menus *)

Lemma with_world_same (s : System) : with_world s (world s) = s.
Proof. now destruct s. Qed.

Lemma item_at_some {A : Type} (l : list A) (index : Z) (x : A) :
  item_at l index = Some x ->
  0 <= index < Z.of_nat (List.length l) /\
  nth_error l (Z.to_nat index) = Some x /\ In x l.
Proof.
  unfold item_at.
  destruct (0 <=? index) eqn:H0; [|discriminate].
  destruct (index <? Z.of_nat (List.length l)) eqn:H1; [|discriminate].
  simpl. intros Hnth. apply Z.leb_le in H0. apply Z.ltb_lt in H1.
  repeat split; auto. now apply nth_error_In in Hnth.
Qed.








(** X19. The guards of [make_purchase_menu] repeat those of
    [make_purchase]: with a customer logged in, a confirmed purchase leaves
    exactly the state [make_purchase] produces for that customer (in
    particular an empty cart or a total above the budget changes nothing),
    and a declined one changes nothing. *)
Theorem make_purchase_menu_outcome (c : ref) (now : Z) (s : System) :
  current_customer s = Some c ->
  make_purchase_menu true now s =
  Some (with_world s (snd (make_purchase c now (world s)))) /\
  make_purchase_menu false now s = Some s.
Proof.
  intros Hc. unfold make_purchase_menu. rewrite Hc.
  destruct (CustomerAgent.shopping_cart (customer_objs (world s) c))
    as [|r cart] eqn:Hcart.
  - simpl. split; [|reflexivity].
    unfold make_purchase. rewrite Hcart. simpl truthy.
    rewrite andb_false_r. simpl. now rewrite with_world_same.
  - simpl negb. cbv iota.
    destruct (PrimFloat.ltb (CustomerAgent.budget (customer_objs (world s) c))
                            (view_cart c (world s))) eqn:Hover;
      [|split; reflexivity].
    split; [|reflexivity].
    unfold make_purchase. rewrite (ltb_leb_false _ _ Hover). simpl.
    now rewrite with_world_same.
Qed.

Lemma make_purchase_menu_outcome_witness :
  let s := shop_system (shop 100 1 150 [1%positive]) (Some 1%positive) in
  make_purchase_menu true 0 s =
  Some (with_world s (snd (make_purchase 1 0 (world s)))) /\
  make_purchase_menu false 0 s = Some s.
Proof.
  intros s. apply (make_purchase_menu_outcome 1%positive 0 s). reflexivity.
Defined.

Lemma item_at_last {A : Type} (l : list A) (x : A) :
  item_at (l ++ [x]) (Z.of_nat (List.length l)) = Some x.
Proof.
  unfold item_at. rewrite length_app. simpl.
  rewrite (proj2 (Z.leb_le 0 _)) by lia.
  rewrite (proj2 (Z.ltb_lt _ _)) by lia.
  simpl. rewrite Nat2Z.id, nth_error_app2 by lia.
  now rewrite Nat.sub_diag.
Qed.

(** X20. Registration and login fit together: a customer who has just been
    registered logs in with the last number of the list.  A successful
    login selects a registered customer and leaves the marketplace state
    alone, and after it none of the cart and purchase menus raises; a
    failed login changes nothing, so whoever was logged in stays logged
    in. *)
Theorem login_after_registration (s : System) :
  (forall c,
      login_menu (Some (Z.of_nat (List.length (customers s)) + 1))
                 (register_customer c s) =
      (true,
       mkSystem (world s) (seller_objs s) (customers s ++ [c]) (sellers s)
                (Some c))) /\
  (forall choice,
      fst (login_menu choice s) = true ->
      let s' := snd (login_menu choice s) in
      (exists c, In c (customers s) /\ current_customer s' = Some c) /\
      world s' = world s /\
      customers s' = customers s /\
      (forall ch, add_to_cart_menu ch s' <> None) /\
      (forall ch, remove_from_cart_menu ch s' <> None) /\
      (forall confirm now, make_purchase_menu confirm now s' <> None)) /\
  (forall choice, fst (login_menu choice s) = false ->
                  snd (login_menu choice s) = s).
Proof.
  split; [|split].
  - intros c. unfold login_menu, register_customer. cbn [customers].
    replace (negb (truthy (customers s ++ [c]))) with false
      by (now destruct (customers s)).
    replace (Z.of_nat (List.length (customers s)) + 1 - 1)
      with (Z.of_nat (List.length (customers s))) by lia.
    now rewrite item_at_last.
  - intros choice. unfold login_menu.
    destruct (negb (truthy (customers s))); [discriminate|].
    destruct choice as [n|]; [|discriminate].
    destruct (item_at (customers s) (n - 1)) as [c|] eqn:Hc; [|discriminate].
    intros _. cbn [snd]. apply item_at_some in Hc.
    destruct Hc as (_ & _ & Hin).
    split; [now exists c|]. split; [reflexivity|]. split; [reflexivity|].
    split; [|split].
    + intros ch. unfold add_to_cart_menu. cbn [world current_customer].
      destruct (negb _); [discriminate|].
      destruct ch as [k|]; [|discriminate].
      destruct (item_at _ _); discriminate.
    + intros ch. unfold remove_from_cart_menu. cbn [world current_customer].
      destruct (negb _); [discriminate|].
      destruct ch as [k|]; [|discriminate].
      destruct (item_at _ _); discriminate.
    + intros confirm now. unfold make_purchase_menu.
      cbn [world current_customer].
      destruct (negb _); [discriminate|].
      destruct (PrimFloat.ltb _ _); [discriminate|].
      destruct confirm; discriminate.
  - intros choice. unfold login_menu.
    destruct (negb (truthy (customers s))); [reflexivity|].
    destruct choice as [n|]; [|reflexivity].
    destruct (item_at (customers s) (n - 1)); [discriminate|reflexivity].
Qed.

Lemma login_after_registration_witness :
  let s := shop_system (shop 10 3 150 []) None in
  let s' := snd (login_menu (Some 1) s) in
  current_customer s' = Some 1%positive /\
  add_to_cart_menu (Some 1) s' <> None.
Proof.
  intros s s'. destruct (login_after_registration s) as (_ & Hlogin & _).
  destruct (Hlogin (Some 1) eq_refl) as (_ & _ & _ & Hadd & _).
  split; [reflexivity|apply Hadd].
Defined.

Lemma run_stock_le (w : World) (ops : list op) (r : ref) :
  Product.stock (product_objs (run w ops) r) <= Product.stock (product_objs w r).
Proof.
  apply (run_ind (fun v => Product.stock (product_objs v r) <=
                           Product.stock (product_objs w r))); [lia|].
  intros w' o IH.
  destruct (step_has_effect w' o) as [-> _ _|c ps now _ -> _ _ _]; [exact IH|].
  rewrite decrement_stock_count. lia.
Qed.

(** X21. A low-stock flag is never lifted: a product that
    [seller_analysis_menu] lists as low on stock for a seller (stock below
    5) is still listed for that seller after any sequence of cart,
    purchase and catalogue operations. *)
Theorem low_stock_stays_flagged
    (seller r : ref) (s : System) (ops : list op) :
  In r (low_stock_products seller s) ->
  In r (low_stock_products seller (with_world s (run (world s) ops))).
Proof.
  unfold low_stock_products. cbn [with_world world seller_objs].
  rewrite !filter_In, !Z.ltb_lt. intros [Hin Hlow]. split; [exact Hin|].
  pose proof (run_stock_le (world s) ops r). lia.
Qed.

Lemma low_stock_stays_flagged_witness :
  let s := shop_system (shop 10 3 150 []) None in
  In 1%positive
     (low_stock_products
        1 (with_world s (run (world s) [AddToCart 1 1; MakePurchase 1 0]))).
Proof.
  intros s.
  apply (low_stock_stays_flagged 1 1 s [AddToCart 1 1; MakePurchase 1 0]).
  simpl. auto.
Defined.

(** X22. What the stock check does guarantee for a purchase: when the ids
    of the catalogue are pairwise distinct, every entry of the cart is a
    catalogue object and no object is in the cart twice, a purchase leaves
    every stock at 0 or above, provided every stock was so before. *)
Theorem purchase_without_repeats_keeps_stock
    (self : ref) (now : Z) (w : World) :
  let cart := CustomerAgent.shopping_cart (customer_objs w self) in
  (forall r, 0 <= Product.stock (product_objs w r)) ->
  NoDup (map (fun q => Product.id (product_objs w q))
             (Marketplace.products (market w))) ->
  (forall r, In r cart -> In r (Marketplace.products (market w))) ->
  NoDup cart ->
  forall r, 0 <= Product.stock (product_objs (snd (make_purchase self now w)) r).
Proof.
  intros cart Hnn Hids Hcat Hnd r.
  destruct (fst (make_purchase self now w)) eqn:Hbuy.
  - apply pair_eta in Hbuy.
    destruct (make_purchase_success _ _ _ _ Hbuy) as (_ & _ & Hall & ->).
    fold cart in Hall |- *. cbn [product_objs].
    rewrite decrement_stock_count.
    destruct (in_dec Pos.eq_dec r cart) as [Hin|Hout].
    + rewrite forallb_forall in Hall. specialize (Hall r Hin).
      rewrite check_stock_of_entry in Hall.
      * apply Z.ltb_lt in Hall.
        rewrite (proj1 (NoDup_count_occ' Pos.eq_dec cart) Hnd r Hin). lia.
      * apply (find_first_of_unique_key
                 (fun q => Product.id (product_objs w q))); auto.
    + rewrite (proj1 (count_occ_not_In Pos.eq_dec cart r) Hout).
      specialize (Hnn r). lia.
  - apply pair_eta in Hbuy. apply make_purchase_failure in Hbuy.
    rewrite Hbuy. apply Hnn.
Qed.

Lemma purchase_without_repeats_keeps_stock_witness :
  0 <= Product.stock
         (product_objs (snd (make_purchase 1 0 (shop 100 1 150 [1%positive])))
                       1%positive).
Proof.
  apply (purchase_without_repeats_keeps_stock
           1%positive 0 (shop 100 1 150 [1%positive])).
  - intros r. unfold shop, upd. cbn [product_objs].
    destruct (Pos.eqb r 1); simpl; lia.
  - repeat constructor. simpl. tauto.
  - intros r Hr. exact Hr.
  - repeat constructor. simpl. tauto.
Defined.
